(** * npkeymaputil: the keymap utility [util.py], embedded and verified

    The program finds the two HID collections of a keyboard (the "request" and
    the "data" channel), then reads the keymap from the keyboard into a file
    or writes a keymap file to the keyboard, as feature reports.

    Python values are embedded as follows.
    - [bytes] objects are lists of [Byte.byte];
    - [int] is [Z], a list of ints is [list Z];
    - [str] is [String.string], holding the UTF-8 encoding of the text;
    - [None] or a value is an [option];
    - a raised exception is the left summand of a sum type;
    - the calls the program makes to its host (the [hid] module, the file
      system, [print], [argparse]) are recorded, in order, in a trace of
      events; what the host answers is read from a record of oracles. *)

From Stdlib Require Import ZArith List String Ascii Bool Lia Permutation.
From Stdlib Require Import Strings.Byte.
From Stdlib Require DecimalString HexadecimalString.
Import ListNotations.

Local Open Scope string_scope.
Local Open Scope Z_scope.
Local Open Scope list_scope.

(** String concatenation, Python's [+] on [str] and the parts of an
    f-string. *)
Infix "+++" := String.append (right associativity, at level 60).

(** ** Python values *)

Definition bytes := list byte.
Definition str := string.

(** The bytes literal [b'...'] of an ASCII text. *)
Definition b (s : string) : bytes := list_byte_of_string s.

(** [list(bs)] and one element of it: the integer value of a byte. *)
Definition int_of_byte (x : byte) : Z := Z.of_N (Byte.to_N x).

Definition list_of_bytes (bs : bytes) : list Z := map int_of_byte bs.

(** The exceptions the program can end with.  [OSError] stands for whatever
    the host raises ([hid] and the built-in [open] raise [OSError], of which
    [IOError] is an alias); [SystemExit] is what [parser.error] ends in. *)
Inductive exn : Type :=
| Exception (msg : str)
| UnicodeDecodeError (obj : bytes)
| ValueError (msg : str)
| OSError (msg : str)
| SystemExit (code : Z).

(** [bytes(ints)]: every element must be in [range(0, 256)]. *)
Definition byte_of_int (i : Z) : option byte :=
  if (0 <=? i) && (i <? 256) then Byte.of_N (Z.to_N i) else None.

Fixpoint bytes_of_list (ints : list Z) : exn + bytes :=
  match ints with
  | [] => inr []
  | i :: rest =>
      match byte_of_int i with
      | None => inl (ValueError "bytes must be in range(0, 256)")
      | Some x =>
          match bytes_of_list rest with
          | inl e => inl e
          | inr xs => inr (x :: xs)
          end
      end
  end.

(** [needle in haystack] on bytes objects: a contiguous occurrence. *)
Fixpoint startswith (haystack prefix : bytes) {struct prefix} : bool :=
  match prefix, haystack with
  | [], _ => true
  | _ :: _, [] => false
  | p :: prefix', x :: haystack' => Byte.eqb p x && startswith haystack' prefix'
  end.

Fixpoint contains (needle haystack : bytes) : bool :=
  startswith haystack needle ||
  match haystack with
  | [] => false
  | _ :: haystack' => contains needle haystack'
  end.

(** [bs.decode()]: strict UTF-8.  The well-formed byte sequences are those of
    the Unicode standard (no overlong forms, no surrogates, nothing above
    U+10FFFF).  Since a [str] is held as its UTF-8 encoding, decoding a
    well-formed sequence keeps the bytes. *)
Definition is_cont (x : byte) : bool :=
  let n := Byte.to_N x in ((128 <=? n) && (n <=? 191))%N.

Definition in_range (lo hi : N) (x : byte) : bool :=
  let n := Byte.to_N x in ((lo <=? n) && (n <=? hi))%N.

Fixpoint utf8_well_formed (bs : bytes) : bool :=
  match bs with
  | [] => true
  | x0 :: t0 =>
      if in_range 0 127 x0 then utf8_well_formed t0
      else
        match t0 with
        | [] => false
        | x1 :: t1 =>
            if in_range 194 223 x0 then is_cont x1 && utf8_well_formed t1
            else
              match t1 with
              | [] => false
              | x2 :: t2 =>
                  if in_range 224 224 x0 then
                    in_range 160 191 x1 && is_cont x2 && utf8_well_formed t2
                  else if in_range 237 237 x0 then
                    in_range 128 159 x1 && is_cont x2 && utf8_well_formed t2
                  else if in_range 225 239 x0 then
                    is_cont x1 && is_cont x2 && utf8_well_formed t2
                  else
                    match t2 with
                    | [] => false
                    | x3 :: t3 =>
                        if in_range 240 240 x0 then
                          in_range 144 191 x1 && is_cont x2 && is_cont x3
                          && utf8_well_formed t3
                        else if in_range 241 243 x0 then
                          is_cont x1 && is_cont x2 && is_cont x3
                          && utf8_well_formed t3
                        else if in_range 244 244 x0 then
                          in_range 128 143 x1 && is_cont x2 && is_cont x3
                          && utf8_well_formed t3
                        else false
                    end
              end
        end
  end.

Definition decode (bs : bytes) : exn + str :=
  if utf8_well_formed bs then inr (string_of_list_byte bs)
  else inl (UnicodeDecodeError bs).

(** [str(n)] and the format specification [0Nx] of an f-string: lower-case
    hexadecimal, padded with zeros after the sign to [width] characters. *)
Definition str_of_int (n : Z) : str :=
  DecimalString.NilZero.string_of_int (Z.to_int n).

Fixpoint zeros (n : nat) : str :=
  match n with
  | O => ""
  | S n' => "0" +++ zeros n'
  end.

Definition format_0x (width : nat) (n : Z) : str :=
  let sign := if n <? 0 then "-" else "" in
  let digits := HexadecimalString.NilZero.string_of_int (Z.to_hex_int (Z.abs n)) in
  sign +++ zeros (width - String.length sign - String.length digits) +++ digits.

(** [sep.join(parts)]. *)
Fixpoint join (sep : str) (parts : list str) : str :=
  match parts with
  | [] => ""
  | [p] => p
  | p :: rest => p +++ sep +++ join sep rest
  end.

(** Truthiness of an optional string, as in [if args.read]: [None] and the
    empty string are false. *)
Definition truthy (o : option str) : bool :=
  match o with
  | None => false
  | Some s => negb (String.eqb s "")
  end.

(** Truthiness of a bytes object, as in [not request_path]. *)
Definition nonempty (bs : bytes) : bool :=
  match bs with
  | [] => false
  | _ :: _ => true
  end.

(** ** Constants *)

Definition vendor : Z := 0x05ac.
Definition product : Z := 0x024f.
Definition max_request_size : Z := 0x7ff.

Definition get_keymap_header : list Z := [0x05; 0x84; 0xd8; 0x00; 0x00; 0x00].
Definition set_keymap_header : list Z :=
  [0x06; 0x04; 0xd8; 0x00; 0x40; 0x00; 0x00; 0x00].

(** ** The host: devices, files, standard output *)

(** One entry of [hid.enumerate]: the keys of the dictionary the program
    reads, and the two identifiers the enumeration selects on. *)
Record device_info : Type := {
  path : bytes;
  vendor_id : Z;
  product_id : Z;
  interface_number : Z;
  usage : Z;
  usage_page : Z
}.

(** The two [hid.device()] objects of [main]: [r] and [d]. *)
Inductive handle : Type := dev_r | dev_d.

Inductive event : Type :=
| ParserError (message : str)
| HidEnumerate (vid pid : Z)
| HidOpenPath (dev : handle) (p : bytes)
| HidSendFeatureReport (dev : handle) (buf : list Z)
| HidGetFeatureReport (dev : handle) (report_num max_length : Z)
| HidClose (dev : handle)
| FileOpen (name : str) (mode : str)
| FileRead (name : str)
| FileWrite (name : str) (data : bytes)
| FileClose (name : str)
| PrintLine (line : str).

(** What the host answers.  A feature report comes back from [hid] as a list
    of ints that it builds from a buffer of unsigned chars, so the oracle
    answers with bytes and the program sees their integer values. *)
Record host : Type := {
  hid_enumerate : Z -> Z -> list device_info;
  hid_open_path : handle -> bytes -> option exn;
  hid_send_feature_report : handle -> list Z -> exn + Z;
  hid_get_feature_report : handle -> Z -> Z -> exn + bytes;
  file_open : str -> str -> option exn;
  file_read : str -> exn + bytes;
  file_write : str -> bytes -> option exn
}.

(** ** Programs: a trace of host calls and a result or an exception *)

Definition M (A : Type) : Type := list event * (exn + A).

Definition ret {A} (a : A) : M A := ([], inr a).

Definition raise {A} (e : exn) : M A := ([], inl e).

Definition bind {A B} (m : M A) (k : A -> M B) : M B :=
  match m with
  | (t, inl e) => (t, inl e)
  | (t, inr a) => let (t', res) := k a in (t ++ t', res)
  end.

Definition emit (ev : event) : M unit := ([ev], inr tt).

(** A pure computation that may raise. *)
Definition lift {A} (x : exn + A) : M A := ([], x).

(** A host call: the call is recorded, then it returns or raises. *)
Definition call {A} (ev : event) (answer : exn + A) : M A := ([ev], answer).

Definition call_ (ev : event) (answer : option exn) : M unit :=
  match answer with
  | Some e => ([ev], inl e)
  | None => ([ev], inr tt)
  end.

(** [with ... :] — the closing event happens however the body ends. *)
Definition finally {A} (body : M A) (ev : event) : M A :=
  let (t, res) := body in (t ++ [ev], res).

Declare Scope py_scope.
Delimit Scope py_scope with py.

Notation "x <- m ;; k" := (bind m (fun x => k))
  (at level 100, m at next level, right associativity) : py_scope.
Notation "' pat <- m ;; k" := (bind m (fun x => match x with pat => k end))
  (at level 100, pat pattern, m at next level, right associativity) : py_scope.
Notation "m ;; k" := (bind m (fun _ => k))
  (at level 100, right associativity) : py_scope.

Local Open Scope py_scope.

Definition trace {A} (m : M A) : list event := fst m.
Definition outcome {A} (m : M A) : exn + A := snd m.

(** ** [get_device] *)

Definition request_marker : bytes := b "&Col05".
Definition data_marker : bytes := b "&Col06".

(** The condition of the [if] that guards the body of the loop. *)
Definition is_vendor_collection (device : device_info) : bool :=
  negb (interface_number device =? -1)
  && (usage device =? 1)
  && (usage_page device =? 0xff00).

(** The exception that [raise Exception(f"{prefix}{first.decode()} and
    {second.decode()}")] ends with: the f-string is evaluated first, from
    left to right, and a path that is not UTF-8 raises there. *)
Definition multiple_found (prefix : str) (first second : bytes) : exn :=
  match decode first with
  | inl e => e
  | inr s1 =>
      match decode second with
      | inl e => e
      | inr s2 => Exception (prefix +++ s1 +++ " and " +++ s2)
      end
  end.

(** One round of the [for] loop (lines 37-48), on the pair
    [(request_path, data_path)]. *)
Definition get_device_step (st : bytes * bytes) (device : device_info)
  : exn + bytes * bytes :=
  let '(request_path, data_path) := st in
  if is_vendor_collection device then
    if contains request_marker (path device) then
      if nonempty request_path then
        inl (multiple_found "Multiple request devices found: "
               request_path (path device))
      else inr (path device, data_path)
    else if contains data_marker (path device) then
      if nonempty data_path then
        inl (multiple_found "Multiple data devices found: "
               data_path (path device))
      else inr (request_path, path device)
    else inr st
  else inr st.

Fixpoint get_device_loop (devices : list device_info) (st : bytes * bytes)
  : exn + bytes * bytes :=
  match devices with
  | [] => inr st
  | device :: rest =>
      match get_device_step st device with
      | inl e => inl e
      | inr st' => get_device_loop rest st'
      end
  end.

Definition no_devices (vendor product : Z) : exn :=
  Exception ("No devices matching VID: " +++ format_0x 4 vendor
             +++ " PID: " +++ format_0x 4 product +++ " found").

Definition no_request_device : exn := Exception "No request device found".
Definition no_data_device : exn := Exception "No data device found".

(** The part of [get_device] after the enumeration (lines 35-53). *)
Definition select_paths (vendor product : Z) (devices : list device_info)
  : exn + bytes * bytes :=
  match devices with
  | [] => inl (no_devices vendor product)
  | _ :: _ =>
      match get_device_loop devices ([], []) with
      | inl e => inl e
      | inr (request_path, data_path) =>
          if negb (nonempty request_path) then inl no_request_device
          else if negb (nonempty data_path) then inl no_data_device
          else inr (request_path, data_path)
      end
  end.

(** [get_device] (lines 31-53). *)
Definition get_device (h : host) (vendor product : Z) : M (bytes * bytes) :=
  devices <- call (HidEnumerate vendor product)
                  (inr (hid_enumerate h vendor product)) ;;
  lift (select_paths vendor product devices).

(** *** The channels, as the loop tells them apart

    The loop tests the request marker first and the data marker only in the
    [elif]: a descriptor of the vendor collections belongs to the request
    channel when its path has the request marker, and to the data channel
    when its path has the data marker and not the request marker. *)
Inductive channel : Type := Request | Data.

Definition has_marker (marker : bytes) (device : device_info) : bool :=
  contains marker (path device).

Definition is_request (device : device_info) : bool :=
  is_vendor_collection device && has_marker request_marker device.

Definition is_data (device : device_info) : bool :=
  is_vendor_collection device
  && negb (has_marker request_marker device)
  && has_marker data_marker device.

Definition members (ch : channel) (devices : list device_info)
  : list device_info :=
  filter (match ch with Request => is_request | Data => is_data end) devices.

Definition multiple_prefix (ch : channel) : str :=
  match ch with
  | Request => "Multiple request devices found: "
  | Data => "Multiple data devices found: "
  end.

(** The paths a loop variable stands for: none while it is [b''], one after
    it has been assigned. *)
Definition found (p : bytes) : list bytes := if nonempty p then [p] else [].

(** ** The two formatters *)

Definition newline : str := String (ascii_of_nat 10) "".

(** [range(0, stop, step)]. *)
Definition range0 (stop step : nat) : list nat :=
  map (fun k => (k * step)%nat) (seq 0 ((stop + step - 1) / step)).

(** [list_to_hex] (lines 64-65). *)
Definition list_to_hex (int_list : list Z) : str :=
  join " " (map (format_0x 2) int_list).

(** [format_to_hex_template] (lines 55-62). *)
Definition format_to_hex_template (int_list : list Z) : str :=
  let chunk_size := 4%nat in
  let chunks :=
    map (fun i => firstn chunk_size (skipn i int_list))
        (range0 (List.length int_list) chunk_size) in
  fold_left
    (fun formatted_str '(idx, chunk) =>
       let hex_values := join " " (map (format_0x 2) chunk) in
       formatted_str +++ format_0x 4 (Z.of_nat (idx * chunk_size))
                     +++ "  " +++ hex_values +++ newline)
    (combine (seq 0 (List.length chunks)) chunks) "".

(** ** [main] *)

(** The namespace that [parser.parse_args()] returns. *)
Record namespace : Type := {
  read : option str;
  write : option str;
  force : bool
}.

(** [parser.error(message)]: usage and message go to standard error and the
    process exits with status 2. *)
Definition parser_error {A} (message : str) : M A :=
  call (ParserError message) (inl (SystemExit 2)).

(** [if args.x: name = args.x; body]. *)
Definition if_set (o : option str) (body : str -> M unit) : M unit :=
  match o with
  | Some name => if truthy o then body name else ret tt
  | None => ret tt
  end.

(** [with open(name, mode) as f: body]. *)
Definition with_open {A} (h : host) (name mode : str) (body : M A) : M A :=
  call_ (FileOpen name mode) (file_open h name mode) ;;
  finally body (FileClose name).

Definition len {A} (l : list A) : Z := Z.of_nat (List.length l).

Definition print (line : str) : M unit := emit (PrintLine line).

(** [receive_result[8:]]. *)
Definition prune (receive_result : list Z) : list Z := skipn 8 receive_result.

(** The body of [if args.read:] (lines 74-89). *)
Definition read_keymap (h : host) (args : namespace) (output_file : str)
  : M unit :=
  if force args then
    print ("Reading keymap from keyboard and saving to " +++ output_file
           +++ ".") ;;
    send_result <- call (HidSendFeatureReport dev_r get_keymap_header)
                        (hid_send_feature_report h dev_r get_keymap_header) ;;
    print ("Sent " +++ str_of_int send_result +++ " bytes to keyboard.") ;;
    response <- call (HidGetFeatureReport dev_d 0x06 max_request_size)
                     (hid_get_feature_report h dev_d 0x06 max_request_size) ;;
    let receive_result := list_of_bytes response in
    print ("Received " +++ str_of_int (len receive_result)
           +++ " bytes from keyboard.") ;;
    let receive_result_pruned := prune receive_result in
    with_open h output_file "wb"
      (data <- lift (bytes_of_list receive_result_pruned) ;;
       call_ (FileWrite output_file data) (file_write h output_file data))
  else
    print ("Command to read keymap and save to " +++ output_file
           +++ " (no action taken, use -f to execute).") ;;
    print (list_to_hex get_keymap_header) ;;
    print ("Length: " +++ str_of_int (len get_keymap_header) +++ " bytes").

(** The body of [if args.write:] (lines 91-104). *)
Definition write_keymap (h : host) (args : namespace) (input_file : str)
  : M unit :=
  input_file_bytes <- with_open h input_file "rb"
                        (call (FileRead input_file) (file_read h input_file)) ;;
  let write_keymap_buffer := set_keymap_header ++ list_of_bytes input_file_bytes in
  if force args then
    print ("Writing keymap from " +++ input_file +++ " to keyboard.") ;;
    send_result <- call (HidSendFeatureReport dev_d write_keymap_buffer)
                        (hid_send_feature_report h dev_d write_keymap_buffer) ;;
    print ("Sent " +++ str_of_int send_result +++ " bytes to keyboard.")
  else
    print ("Command to write keymap from " +++ input_file
           +++ " to keyboard (no action taken, use -f to execute).") ;;
    print (list_to_hex write_keymap_buffer) ;;
    print ("Length: " +++ str_of_int (len write_keymap_buffer) +++ " bytes").

(** The test of the parsed arguments (lines 24-28). *)
Definition check_args (args : namespace) : M unit :=
  if truthy (read args) && truthy (write args) then
    parser_error
      "You can't specify both read and write operations at the same time."
  else if negb (truthy (read args)) && negb (truthy (write args)) then
    parser_error "You must specify either a read or write operation."
  else ret tt.

(** [main], from the parsed arguments on (lines 24-106).  The two
    [hid.device()] objects are made without a call to the host. *)
Definition main (h : host) (args : namespace) : M unit :=
  check_args args ;;
  '(request_path, data_path) <- get_device h vendor product ;;
  call_ (HidOpenPath dev_r request_path) (hid_open_path h dev_r request_path) ;;
  call_ (HidOpenPath dev_d data_path) (hid_open_path h dev_d data_path) ;;
  if_set (read args) (read_keymap h args) ;;
  if_set (write args) (write_keymap h args) ;;
  emit (HidClose dev_r) ;;
  emit (HidClose dev_d).

(** [main] up to its last two statements, the two [close] calls
    (see [main_split]). *)
Definition main_before_close (h : host) (args : namespace) : M unit :=
  check_args args ;;
  '(request_path, data_path) <- get_device h vendor product ;;
  call_ (HidOpenPath dev_r request_path) (hid_open_path h dev_r request_path) ;;
  call_ (HidOpenPath dev_d data_path) (hid_open_path h dev_d data_path) ;;
  if_set (read args) (read_keymap h args) ;;
  if_set (write args) (write_keymap h args).

(** ** Kinds of events *)

Definition is_feature_report (ev : event) : bool :=
  match ev with
  | HidSendFeatureReport _ _ | HidGetFeatureReport _ _ _ => true
  | _ => false
  end.

Definition is_close (ev : event) : bool :=
  match ev with
  | HidClose _ => true
  | _ => false
  end.

Definition is_print (ev : event) : bool :=
  match ev with
  | PrintLine _ => true
  | _ => false
  end.

(** Every host call of a program satisfies [P]. *)
Definition all_events {A} (P : event -> Prop) (m : M A) : Prop :=
  Forall P (trace m).

(** ** A host to run the examples on *)

(** A descriptor of the keyboard's vendor collections with the given path. *)
Definition collection (p : string) : device_info :=
  {| path := b p; vendor_id := vendor; product_id := product;
     interface_number := 1; usage := 1; usage_page := 0xff00 |}.

(** A host on which every call succeeds: the enumeration answers [devices],
    a feature report [response] comes back, the input file holds
    [contents]. *)
Definition sample_host (devices : list device_info) (response contents : bytes)
  : host :=
  {| hid_enumerate := fun _ _ => devices;
     hid_open_path := fun _ _ => None;
     hid_send_feature_report := fun _ buf => inr (len buf);
     hid_get_feature_report := fun _ _ _ => inr response;
     file_open := fun _ _ => None;
     file_read := fun _ => inr contents;
     file_write := fun _ _ => None |}.

(** The same host, except that reading a feature report fails, as [hid]
    reports it. *)
Definition read_error_host (devices : list device_info) : host :=
  {| hid_enumerate := fun _ _ => devices;
     hid_open_path := fun _ _ => None;
     hid_send_feature_report := fun _ buf => inr (len buf);
     hid_get_feature_report := fun _ _ _ => inl (OSError "read error");
     file_open := fun _ _ => None;
     file_read := fun _ => inr [];
     file_write := fun _ _ => None |}.

Definition keyboard : list device_info :=
  [collection "hid#vid_05ac&pid_024f&mi_01&Col05";
   collection "hid#vid_05ac&pid_024f&mi_01&Col06"].

(** A host on which no device can be opened. *)
Definition busy_host (devices : list device_info) : host :=
  {| hid_enumerate := fun _ _ => devices;
     hid_open_path := fun _ _ => Some (OSError "open failed");
     hid_send_feature_report := fun _ buf => inr (len buf);
     hid_get_feature_report := fun _ _ _ => inr [];
     file_open := fun _ _ => None;
     file_read := fun _ => inr [];
     file_write := fun _ _ => None |}.

(** A descriptor of the vendor collections whose path is the byte 0xff, which
    no UTF-8 text contains, followed by the given text. *)
Definition undecodable (p : string) : device_info :=
  {| path := Byte.xff :: b p; vendor_id := vendor; product_id := product;
     interface_number := 1; usage := 1; usage_page := 0xff00 |}.

(** The test that [members] filters with. *)
Definition belongs (ch : channel) (device : device_info) : bool :=
  match ch with
  | Request => is_request device
  | Data => is_data device
  end.

(** ** The chunks of [format_to_hex_template]

    The list comprehension of line 57, on its own. *)
Definition chunks_of (int_list : list Z) : list (list Z) :=
  map (fun i => firstn 4 (skipn i int_list)) (range0 (List.length int_list) 4).

(** ** What [main] may do to files and to the keyboard

    The file events and the feature-report events that a run of [main] on
    host [h] with arguments [args] can contain. *)
Definition file_event_allowed (h : host) (args : namespace) (ev : event)
  : Prop :=
  match ev with
  | FileOpen name mode =>
      (mode = "rb" /\ write args = Some name /\ truthy (write args) = true)
      \/ (mode = "wb" /\ read args = Some name /\ truthy (read args) = true
          /\ force args = true
          /\ (exists send_result,
                hid_send_feature_report h dev_r get_keymap_header
                = inr send_result)
          /\ (exists response,
                hid_get_feature_report h dev_d 0x06 max_request_size
                = inr response))
  | FileRead name => write args = Some name /\ file_open h name "rb" = None
  | FileWrite name data =>
      read args = Some name /\ force args = true
      /\ file_open h name "wb" = None
      /\ exists response,
           hid_get_feature_report h dev_d 0x06 max_request_size = inr response
           /\ data = skipn 8 response
  | FileClose name =>
      (write args = Some name /\ file_open h name "rb" = None)
      \/ (read args = Some name /\ file_open h name "wb" = None)
  | _ => True
  end.

Definition feature_report_allowed (h : host) (args : namespace) (ev : event)
  : Prop :=
  match ev with
  | HidSendFeatureReport dev buf =>
      force args = true
      /\ ((dev = dev_r /\ buf = [0x05; 0x84; 0xd8; 0x00; 0x00; 0x00]
           /\ truthy (read args) = true)
          \/ (dev = dev_d /\ truthy (write args) = true
              /\ exists name blob,
                   write args = Some name
                   /\ file_open h name "rb" = None
                   /\ file_read h name = inr blob
                   /\ buf = [0x06; 0x04; 0xd8; 0x00; 0x40; 0x00; 0x00; 0x00]
                            ++ list_of_bytes blob))
  | HidGetFeatureReport dev report_num max_length =>
      force args = true /\ truthy (read args) = true
      /\ dev = dev_d /\ report_num = 0x06 /\ max_length = 0x7ff
      /\ exists send_result,
           hid_send_feature_report h dev_r get_keymap_header = inr send_result
  | _ => True
  end.

(** The events of [main] before it starts on the read or the write: the
    usage error, the enumeration and the two opens. *)
Definition is_startup (ev : event) : bool :=
  match ev with
  | ParserError _ | HidEnumerate _ _ | HidOpenPath _ _ => true
  | _ => false
  end.

(** The same arguments with the force flag set or cleared. *)
Definition with_force (flag : bool) (args : namespace) : namespace :=
  {| read := read args; write := write args; force := flag |}.

(** The events on files. *)
Definition is_file_event (ev : event) : bool :=
  match ev with
  | FileOpen _ _ | FileRead _ | FileWrite _ _ | FileClose _ => true
  | _ => false
  end.

(** A host with the keyboard attached and no file that can be opened. *)
Definition missing_file_host (devices : list device_info) : host :=
  {| hid_enumerate := fun _ _ => devices;
     hid_open_path := fun _ _ => None;
     hid_send_feature_report := fun _ buf => inr (len buf);
     hid_get_feature_report := fun _ _ _ => inr [];
     file_open := fun _ _ => Some (OSError "No such file or directory");
     file_read := fun _ => inr [];
     file_write := fun _ _ => None |}.

(** * Properties *)

(** ** Bytes and substrings *)

Lemma byte_of_int_of_byte (x : byte) : byte_of_int (int_of_byte x) = Some x.
Proof.
  unfold byte_of_int, int_of_byte.
  pose proof (Byte.to_N_bounded x) as Hb.
  replace ((0 <=? Z.of_N (to_N x)) && (Z.of_N (to_N x) <? 256)) with true.
  - rewrite N2Z.id. apply Byte.of_to_N.
  - symmetry. apply andb_true_intro. split.
    + apply Z.leb_le. lia.
    + apply Z.ltb_lt. lia.
Qed.

Lemma bytes_of_list_of_bytes (bs : bytes) :
  bytes_of_list (list_of_bytes bs) = inr bs.
Proof.
  induction bs as [|x bs IH]; simpl.
  - reflexivity.
  - rewrite byte_of_int_of_byte, IH. reflexivity.
Qed.

Lemma skipn_list_of_bytes (n : nat) (bs : bytes) :
  skipn n (list_of_bytes bs) = list_of_bytes (skipn n bs).
Proof. unfold list_of_bytes. apply skipn_map. Qed.

Lemma startswith_iff (haystack prefix : bytes) :
  startswith haystack prefix = true <-> exists post, haystack = prefix ++ post.
Proof.
  revert haystack. induction prefix as [|p prefix IH]; intros haystack.
  - simpl. split; [intros _; now exists haystack | reflexivity].
  - destruct haystack as [|x haystack]; simpl.
    + split; [discriminate | intros [post Hpost]; discriminate].
    + rewrite andb_true_iff, IH. split.
      * intros [Hpx [post ->]]. apply Byte.byte_dec_bl in Hpx. subst x.
        now exists post.
      * intros [post Hpost]. injection Hpost as -> ->. split.
        -- now apply Byte.byte_dec_lb.
        -- now exists post.
Qed.

(** [needle in haystack] holds exactly when the needle occurs in the
    haystack as a contiguous run. *)
Lemma contains_iff (needle haystack : bytes) :
  contains needle haystack = true
  <-> exists pre post, haystack = pre ++ needle ++ post.
Proof.
  induction haystack as [|x haystack IH].
  - simpl. rewrite orb_false_r, startswith_iff. split.
    + intros [post Hpost]. now exists [], post.
    + intros [pre [post Hpost]]. destruct pre as [|y pre]; [|discriminate].
      now exists post.
  - simpl. rewrite orb_true_iff, startswith_iff, IH. split.
    + intros [[post Hpost] | [pre [post Hpost]]].
      * now exists [], post.
      * exists (x :: pre), post. now rewrite Hpost.
    + intros [pre [post Hpost]]. destruct pre as [|y pre].
      * left. now exists post.
      * right. injection Hpost as _ Hpost. now exists pre, post.
Qed.

Lemma contains_request_nonempty (p : bytes) :
  contains request_marker p = true -> nonempty p = true.
Proof. destruct p; [discriminate | reflexivity]. Qed.

Lemma contains_data_nonempty (p : bytes) :
  contains data_marker p = true -> nonempty p = true.
Proof. destruct p; [discriminate | reflexivity]. Qed.

Lemma nonempty_false (p : bytes) : nonempty p = false -> p = [].
Proof. destruct p; [reflexivity | discriminate]. Qed.

(** A path of well-formed UTF-8 is named in the message as it is. *)
Lemma multiple_found_utf8 (prefix : str) (first second : bytes) :
  utf8_well_formed first = true ->
  utf8_well_formed second = true ->
  multiple_found prefix first second
  = Exception (prefix +++ string_of_list_byte first +++ " and "
               +++ string_of_list_byte second).
Proof.
  intros H1 H2. unfold multiple_found, decode. now rewrite H1, H2.
Qed.

(** The descriptor fails the filter exactly when one of the three tests
    fails. *)
Lemma is_vendor_collection_false (device : device_info) :
  is_vendor_collection device = false
  <-> interface_number device = -1 \/ usage device <> 1
      \/ usage_page device <> 0xff00.
Proof.
  unfold is_vendor_collection.
  rewrite !andb_false_iff, negb_false_iff, Z.eqb_eq, !Z.eqb_neq. tauto.
Qed.

(** ** Resolution: what the loop of [get_device] computes *)

Lemma found_nonempty (p : bytes) : nonempty p = true -> found p = [p].
Proof. unfold found. now intros ->. Qed.

Lemma filter_filter_andb {A} (f g : A -> bool) (l : list A) :
  filter f (filter g l) = filter (fun x => g x && f x) l.
Proof.
  induction l as [|x l IH]; simpl; [reflexivity|].
  destruct (g x); simpl; [destruct (f x)|]; now rewrite IH.
Qed.

Lemma members_request (devices : list device_info) :
  members Request devices
  = filter (has_marker request_marker) (filter is_vendor_collection devices).
Proof. unfold members. now rewrite filter_filter_andb. Qed.

Lemma members_data (devices : list device_info) :
  members Data devices
  = filter (fun x => negb (has_marker request_marker x))
      (filter (has_marker data_marker)
         (filter is_vendor_collection devices)).
Proof.
  unfold members. rewrite !filter_filter_andb. apply filter_ext.
  intros x. unfold is_data.
  destruct (is_vendor_collection x), (has_marker request_marker x),
    (has_marker data_marker x); reflexivity.
Qed.

Lemma members_cons ch device devices :
  members ch (device :: devices)
  = if (match ch with Request => is_request | Data => is_data end) device
    then device :: members ch devices
    else members ch devices.
Proof. reflexivity. Qed.

(** The loop, run from any state: it ends without an exception exactly when
    each channel has at most one path, counting the one already held, and
    then holds those; it raises at the first descriptor that is the second
    of its channel, naming the first two paths of that channel. *)
Lemma get_device_loop_cases (devices : list device_info) :
  forall request_path data_path,
    let requests := found request_path ++ map path (members Request devices) in
    let datas := found data_path ++ map path (members Data devices) in
    match get_device_loop devices (request_path, data_path) with
    | inr (request_path', data_path') =>
        found request_path' = requests /\ found data_path' = datas
    | inl e =>
        exists ch p q rest,
          (match ch with Request => requests | Data => datas end)
          = p :: q :: rest
          /\ e = multiple_found (multiple_prefix ch) p q
    end.
Proof.
  induction devices as [|device devices IH]; intros request_path data_path.
  - simpl. now rewrite !app_nil_r.
  - cbn [get_device_loop]. unfold get_device_step.
    rewrite !members_cons. unfold is_request, is_data, has_marker.
    destruct (is_vendor_collection device) eqn:Hv; cbn [andb negb].
    2: { apply IH. }
    destruct (contains request_marker (path device)) eqn:Hr; cbn [andb negb].
    + destruct (nonempty request_path) eqn:Hn.
      * exists Request, request_path, (path device),
          (map path (members Request devices)).
        split; [|reflexivity]. now rewrite (found_nonempty _ Hn).
      * apply nonempty_false in Hn. subst request_path.
        specialize (IH (path device) data_path).
        rewrite (found_nonempty _ (contains_request_nonempty _ Hr)) in IH.
        exact IH.
    + destruct (contains data_marker (path device)) eqn:Hd.
      * destruct (nonempty data_path) eqn:Hn.
        -- exists Data, data_path, (path device),
             (map path (members Data devices)).
           split; [|reflexivity]. now rewrite (found_nonempty _ Hn).
        -- apply nonempty_false in Hn. subst data_path.
           specialize (IH request_path (path device)).
           rewrite (found_nonempty _ (contains_data_nonempty _ Hd)) in IH.
           exact IH.
      * apply IH.
Qed.

(** A descriptor that fails the filter leaves the loop as it is. *)
Lemma get_device_loop_skips device pre post :
  is_vendor_collection device = false ->
  forall st,
    get_device_loop (pre ++ device :: post) st = get_device_loop (pre ++ post) st.
Proof.
  intros Hv. induction pre as [|x pre IH]; intros st.
  - simpl. unfold get_device_step. destruct st. now rewrite Hv.
  - simpl. destruct (get_device_step st x); [reflexivity | apply IH].
Qed.

(** Every way [get_device] can end, after the enumeration. *)
Lemma select_paths_cases (vendor product : Z) (devices : list device_info) :
  match select_paths vendor product devices with
  | inr (request_path, data_path) =>
      exists x y,
        members Request devices = [x] /\ members Data devices = [y]
        /\ request_path = path x /\ data_path = path y
  | inl e =>
      (devices = [] /\ e = no_devices vendor product)
      \/ (exists ch x y rest,
            members ch devices = x :: y :: rest
            /\ e = multiple_found (multiple_prefix ch) (path x) (path y))
      \/ (devices <> [] /\ members Request devices = []
           /\ (List.length (members Data devices) <= 1)%nat
           /\ e = no_request_device)
      \/ (devices <> [] /\ (exists x, members Request devices = [x])
           /\ members Data devices = [] /\ e = no_data_device)
  end.
Proof.
  destruct devices as [|device devices]; [left; now split|].
  unfold select_paths.
  assert (Hne : device :: devices <> []) by discriminate.
  generalize dependent (device :: devices). clear device devices.
  intros devices Hne.
  pose proof (get_device_loop_cases devices [] []) as Hloop.
  cbv zeta in Hloop. cbn [found nonempty app] in Hloop. unfold bytes in *.
  destruct (get_device_loop devices ([], [])) as [e | [request_path data_path]].
  - right; left. destruct Hloop as (ch & p & q & rest & Hlist & ->).
    exists ch. destruct ch;
      [destruct (members Request devices) as [|x [|y rest']]
      |destruct (members Data devices) as [|x [|y rest']]];
      try discriminate;
      injection Hlist as <- <- _; now exists x, y, rest'.
  - destruct Hloop as [Hr Hd]. unfold found in Hr, Hd.
    destruct (nonempty request_path) eqn:Hnr; cbn [negb].
    + destruct (members Request devices) as [|x [|? ?]] eqn:Er;
        try discriminate.
      injection Hr as ->.
      destruct (nonempty data_path) eqn:Hnd; cbn [negb].
      * destruct (members Data devices) as [|y [|? ?]] eqn:Ed;
          try discriminate.
        injection Hd as ->. now exists x, y.
      * destruct (members Data devices) eqn:Ed; try discriminate.
        right; right; right. repeat split; trivial. now exists x.
    + destruct (members Request devices) eqn:Er; try discriminate.
      right; right; left. repeat split; trivial.
      destruct (nonempty data_path);
        destruct (members Data devices) as [|y [|? ?]];
        try discriminate; simpl; lia.
Qed.

Lemma get_device_eq (h : host) (vendor product : Z) :
  get_device h vendor product
  = ([HidEnumerate vendor product],
     select_paths vendor product (hid_enumerate h vendor product)).
Proof.
  unfold get_device, call, lift, bind.
  now destruct (select_paths vendor product (hid_enumerate h vendor product)).
Qed.

(** ** Resolution: the claims *)

(** C9.  In one round of the loop, a descriptor that passes the filter and
    whose path has both markers is taken for the request channel only: it
    becomes the request path (or is the second request descriptor), and the
    data path stays as it was.  A descriptor that fails the filter (interface
    number -1, or usage other than 1, or usage page other than 0xff00) leaves
    both paths as they were and raises nothing, whatever its path holds, so
    the loop runs as if the descriptor were not in the list. *)
Theorem get_device_step_classification
    (device : device_info) (request_path data_path : bytes) :
  (is_vendor_collection device = true ->
   has_marker request_marker device = true ->
   has_marker data_marker device = true ->
   get_device_step (request_path, data_path) device
   = if nonempty request_path
     then inl (multiple_found "Multiple request devices found: "
                 request_path (path device))
     else inr (path device, data_path))
  /\ (interface_number device = -1 \/ usage device <> 1
      \/ usage_page device <> 0xff00 ->
      get_device_step (request_path, data_path) device
      = inr (request_path, data_path)
      /\ forall pre post,
           get_device_loop (pre ++ device :: post) (request_path, data_path)
           = get_device_loop (pre ++ post) (request_path, data_path)).
Proof.
  split.
  - intros Hv Hr _. unfold get_device_step, has_marker in *.
    now rewrite Hv, Hr.
  - intros Hv. apply is_vendor_collection_false in Hv. split.
    + unfold get_device_step. now rewrite Hv.
    + intros pre post. now apply get_device_loop_skips.
Qed.

Lemma get_device_step_classification_witness :
  get_device_step ([], b "kbd&Col06") (collection "kbd&Col05&Col06")
  = inr (b "kbd&Col05&Col06", b "kbd&Col06")
  /\ get_device_loop
       ([collection "kbd&Col05"]
        ++ {| path := b "kbd&Col05"; vendor_id := vendor;
              product_id := product; interface_number := -1;
              usage := 1; usage_page := 0xff00 |}
        :: [collection "kbd&Col06"]) ([], [])
     = get_device_loop ([collection "kbd&Col05"] ++ [collection "kbd&Col06"])
         ([], []).
Proof.
  split.
  - apply (get_device_step_classification
             (collection "kbd&Col05&Col06") [] (b "kbd&Col06"));
      reflexivity.
  - apply (get_device_step_classification
             {| path := b "kbd&Col05"; vendor_id := vendor;
                product_id := product; interface_number := -1;
                usage := 1; usage_page := 0xff00 |} [] []).
    left. reflexivity.
Defined.

(** C1, as the spec states it, fails: a single descriptor whose path has
    both markers is the only one with the request marker and the only one
    with the data marker, and resolution ends with "No data device found". *)
Lemma get_device_one_descriptor_both_markers :
  let x := collection "kbd&Col05&Col06" in
  let h := sample_host [x] [] [] in
  let filtered := filter is_vendor_collection (hid_enumerate h vendor product) in
  filter (has_marker request_marker) filtered = [x]
  /\ filter (has_marker data_marker) filtered = [x]
  /\ get_device h vendor product
     = ([HidEnumerate vendor product], inl no_data_device)
  /\ outcome (get_device h vendor product) <> inr (path x, path x).
Proof. repeat split. discriminate. Qed.

(** C1, amended.  When, among the descriptors that pass the filter, exactly
    one has a path with the request marker and exactly one has a path with
    the data marker, and these are two different descriptors, [get_device]
    returns the two paths as they are, the request path first. *)
Theorem get_device_one_of_each
    (h : host) (vendor product : Z) (rq dt : device_info) :
  let filtered :=
    filter is_vendor_collection (hid_enumerate h vendor product) in
  filter (has_marker request_marker) filtered = [rq] ->
  filter (has_marker data_marker) filtered = [dt] ->
  rq <> dt ->
  get_device h vendor product
  = ([HidEnumerate vendor product], inr (path rq, path dt)).
Proof.
  intros filtered Hr Hd Hne. rewrite get_device_eq. f_equal.
  set (devices := hid_enumerate h vendor product) in *.
  assert (Hdt : has_marker request_marker dt = false).
  { destruct (has_marker request_marker dt) eqn:E; [|reflexivity].
    exfalso. apply Hne.
    assert (Hin : In dt filtered).
    { assert (Hin' : In dt [dt]) by (left; reflexivity).
      rewrite <- Hd in Hin'. now apply filter_In in Hin'. }
    assert (Hin2 : In dt [rq]).
    { rewrite <- Hr. apply filter_In. now split. }
    destruct Hin2 as [<- | []]. reflexivity. }
  assert (Mr : members Request devices = [rq]).
  { now rewrite members_request. }
  assert (Md : members Data devices = [dt]).
  { rewrite members_data. fold filtered. rewrite Hd. simpl. now rewrite Hdt. }
  pose proof (select_paths_cases vendor product devices) as Hcases.
  destruct (select_paths vendor product devices) as [e | [rp dp]].
  - exfalso.
    destruct Hcases as [[Hnil _] | [(ch & x & y & rest & Hm & _)
                      | [(_ & Hm & _) | (_ & _ & Hm & _)]]].
    + rewrite Hnil in Mr. discriminate.
    + destruct ch; congruence.
    + congruence.
    + congruence.
  - destruct Hcases as (x & y & Hx & Hy & -> & ->).
    rewrite Mr in Hx. rewrite Md in Hy.
    injection Hx as <-. injection Hy as <-. reflexivity.
Qed.

Lemma get_device_one_of_each_witness :
  get_device (sample_host keyboard [] []) vendor product
  = ([HidEnumerate vendor product],
     inr (b "hid#vid_05ac&pid_024f&mi_01&Col05",
          b "hid#vid_05ac&pid_024f&mi_01&Col06")).
Proof.
  apply (get_device_one_of_each (sample_host keyboard [] []) vendor product
           (collection "hid#vid_05ac&pid_024f&mi_01&Col05")
           (collection "hid#vid_05ac&pid_024f&mi_01&Col06")).
  - reflexivity.
  - reflexivity.
  - discriminate.
Defined.

(** C2, as the spec states it, fails: here two descriptors that pass the
    filter have the data marker in their paths, and resolution succeeds, the
    first of them (which also has the request marker) being taken for the
    request channel. *)
Lemma get_device_two_data_markers_succeeds :
  let devices := [collection "kbd&Col05&Col06"; collection "kbd&Col06"] in
  let h := sample_host devices [] [] in
  let filtered := filter is_vendor_collection (hid_enumerate h vendor product) in
  filter (has_marker data_marker) filtered = devices
  /\ get_device h vendor product
     = ([HidEnumerate vendor product],
        inr (b "kbd&Col05&Col06", b "kbd&Col06")).
Proof. split; reflexivity. Qed.

(** C2, amended.  A descriptor belongs to the request channel when it passes
    the filter and its path has the request marker, and to the data channel
    when it passes the filter and its path has the data marker and not the
    request marker.  Resolution returns a selection exactly when each channel
    has one descriptor.  Otherwise it fails, and the failure is the first
    that applies of:
    - the enumeration is empty: "No devices matching VID: ... PID: ...
      found" (the spec's DeviceNotFoundError);
    - a channel has two or more descriptors: "Multiple request devices
      found: p and q" or "Multiple data devices found: p and q" (the spec's
      AmbiguousDeviceError), for a channel with two or more descriptors, p
      and q being the paths of its first two descriptors, named as they are
      when both are UTF-8;
    - the request channel has no descriptor: "No request device found";
    - the data channel has no descriptor: "No data device found" (the
      spec's ChannelNotFoundError). *)
Theorem get_device_failures (h : host) (vendor product : Z) :
  let devices := hid_enumerate h vendor product in
  let result := outcome (get_device h vendor product) in
  (devices = [] -> result = inl (no_devices vendor product))
  /\ ((2 <= List.length (members Request devices))%nat
      \/ (2 <= List.length (members Data devices))%nat ->
      exists ch x y rest,
        members ch devices = x :: y :: rest
        /\ result = inl (multiple_found (multiple_prefix ch) (path x) (path y))
        /\ (utf8_well_formed (path x) = true ->
            utf8_well_formed (path y) = true ->
            result = inl (Exception (multiple_prefix ch
                                     +++ string_of_list_byte (path x)
                                     +++ " and "
                                     +++ string_of_list_byte (path y)))))
  /\ (devices <> [] ->
      (List.length (members Request devices) <= 1)%nat ->
      (List.length (members Data devices) <= 1)%nat ->
      (members Request devices = [] -> result = inl no_request_device)
      /\ (members Request devices <> [] -> members Data devices = [] ->
          result = inl no_data_device))
  /\ (forall selection,
        result = inr selection
        <-> exists x y,
              members Request devices = [x] /\ members Data devices = [y]
              /\ selection = (path x, path y)).
Proof.
  intros devices result. subst result. rewrite get_device_eq.
  unfold outcome. cbn [snd]. fold devices.
  pose proof (select_paths_cases vendor product devices) as Hcases.
  destruct (select_paths vendor product devices) as [e | [rp dp]].
  - destruct Hcases as [[Hnil ->] | [(ch & x & y & rest & Hm & ->)
                      | [(Hne & Hr & Hd & ->) | (Hne & [x Hr] & Hd & ->)]]].
    + rewrite Hnil. split; [|split; [|split]].
      * reflexivity.
      * simpl. intros [H | H]; lia.
      * congruence.
      * intros selection. split; [discriminate|].
        intros (x & y & H & _). discriminate.
    + assert (Hnil : devices <> []).
      { intros E. rewrite E in Hm. destruct ch; discriminate. }
      assert (Hlen : (2 <= List.length (members ch devices))%nat).
      { rewrite Hm. simpl. lia. }
      split; [|split; [|split]].
      * congruence.
      * intros _. exists ch, x, y, rest. repeat split; trivial.
        intros Hx Hy. now rewrite (multiple_found_utf8 _ _ _ Hx Hy).
      * intros _ H1 H2. destruct ch; lia.
      * intros selection. split; [discriminate|].
        intros (x' & y' & H1 & H2 & _).
        destruct ch; rewrite ?H1, ?H2 in Hlen; simpl in Hlen; lia.
    + split; [|split; [|split]].
      * congruence.
      * rewrite Hr. simpl. intros [H | H]; lia.
      * intros _ _ _. split; [reflexivity | congruence].
      * intros selection. split; [discriminate|].
        intros (x' & y' & H1 & _). congruence.
    + split; [|split; [|split]].
      * congruence.
      * rewrite Hr, Hd. simpl. intros [H | H]; lia.
      * intros _ _ _. split; [congruence | reflexivity].
      * intros selection. split; [discriminate|].
        intros (x' & y' & _ & H2 & _). congruence.
  - destruct Hcases as (x & y & Hx & Hy & -> & ->).
    split; [|split; [|split]].
    + intros E. rewrite E in Hx. discriminate.
    + rewrite Hx, Hy. simpl. intros [H | H]; lia.
    + intros _ _ _. split; congruence.
    + intros selection. split.
      * intros H. injection H as <-. now exists x, y.
      * intros (x' & y' & H1 & H2 & ->). congruence.
Qed.

Lemma get_device_failures_witness :
  outcome (get_device (sample_host [] [] []) vendor product)
  = inl (Exception "No devices matching VID: 05ac PID: 024f found")
  /\ (exists ch x y rest,
        members ch [collection "a&Col05"; collection "b&Col05"]
        = x :: y :: rest
        /\ outcome (get_device
                      (sample_host
                         [collection "a&Col05"; collection "b&Col05"] [] [])
                      vendor product)
           = inl (multiple_found (multiple_prefix ch) (path x) (path y)))
  /\ outcome (get_device (sample_host [collection "b&Col06"] [] [])
                vendor product)
     = inl (Exception "No request device found")
  /\ outcome (get_device (sample_host [collection "a&Col05"] [] [])
                vendor product)
     = inl (Exception "No data device found").
Proof.
  split; [|split; [|split]].
  - apply (get_device_failures (sample_host [] [] []) vendor product).
    reflexivity.
  - pose proof (get_device_failures
                  (sample_host [collection "a&Col05"; collection "b&Col05"]
                     [] [])
                  vendor product) as H.
    cbv zeta in H. destruct H as (_ & H & _).
    destruct H as (ch & x & y & rest & Hm & Hres & _).
    + left. vm_compute. lia.
    + now exists ch, x, y, rest.
  - pose proof (get_device_failures
                  (sample_host [collection "b&Col06"] [] [])
                  vendor product) as H.
    cbv zeta in H. destruct H as (_ & _ & H & _). apply H.
    + discriminate.
    + vm_compute. lia.
    + vm_compute. lia.
    + reflexivity.
  - pose proof (get_device_failures
                  (sample_host [collection "a&Col05"] [] [])
                  vendor product) as H.
    cbv zeta in H. destruct H as (_ & _ & H & _). apply H.
    + discriminate.
    + vm_compute. lia.
    + vm_compute. lia.
    + discriminate.
    + reflexivity.
Defined.

(** ** Programs: sequencing and traces *)

Lemma bind_raise {A B} (t : list event) (e : exn) (k : A -> M B) :
  bind (t, inl e) k = (t, inl e).
Proof. reflexivity. Qed.

Lemma bind_return {A B} (t : list event) (a : A) (k : A -> M B) :
  bind (t, inr a) k = (t ++ trace (k a), outcome (k a)).
Proof. unfold bind. now destruct (k a). Qed.

Lemma bind_assoc {A B C} (m : M A) (f : A -> M B) (g : B -> M C) :
  bind (bind m f) g = bind m (fun x => bind (f x) g).
Proof.
  destruct m as [t [e | a]]; [reflexivity|].
  unfold bind. destruct (f a) as [t1 [e1 | x]]; [reflexivity|].
  destruct (g x) as [t2 res]. now rewrite app_assoc.
Qed.

Section AllEvents.
Context (P : event -> Prop).

Lemma all_events_bind {A B} (m : M A) (k : A -> M B) :
  all_events P m -> (forall a, all_events P (k a)) ->
  all_events P (bind m k).
Proof.
  unfold all_events. destruct m as [t [e | a]]; intros Hm Hk.
  - exact Hm.
  - rewrite bind_return. cbn [trace fst] in *.
    apply Forall_app. split; [exact Hm | apply Hk].
Qed.

Lemma all_events_ret {A} (a : A) : all_events P (ret a).
Proof. constructor. Qed.

Lemma all_events_lift {A} (x : exn + A) : all_events P (lift x).
Proof. constructor. Qed.

Lemma all_events_call {A} (ev : event) (x : exn + A) :
  P ev -> all_events P (call ev x).
Proof. intros H. repeat constructor. exact H. Qed.

Lemma all_events_emit (ev : event) : P ev -> all_events P (emit ev).
Proof. intros H. repeat constructor. exact H. Qed.

Lemma all_events_call_ (ev : event) (x : option exn) :
  P ev -> all_events P (call_ ev x).
Proof. intros H. destruct x; repeat constructor; exact H. Qed.

Lemma all_events_print (line : str) :
  P (PrintLine line) -> all_events P (print line).
Proof. intros H. repeat constructor. exact H. Qed.

Lemma all_events_finally {A} (m : M A) (ev : event) :
  all_events P m -> P ev -> all_events P (finally m ev).
Proof.
  unfold all_events, finally. destruct m as [t res]. cbn [trace fst].
  intros Hm Hev. apply Forall_app. split; [exact Hm | now constructor].
Qed.

Lemma all_events_with_open {A} (h : host) (name mode : str) (m : M A) :
  P (FileOpen name mode) -> P (FileClose name) -> all_events P m ->
  all_events P (with_open h name mode m).
Proof.
  intros Ho Hc Hm. unfold with_open. apply all_events_bind.
  - now apply all_events_call_.
  - intros _. now apply all_events_finally.
Qed.

Lemma all_events_if_set (o : option str) (body : str -> M unit) :
  (forall name, all_events P (body name)) -> all_events P (if_set o body).
Proof.
  intros H. unfold if_set. destruct o as [name|]; [|constructor].
  destruct (truthy (Some name)); [apply H | constructor].
Qed.

Lemma all_events_check_args (args : namespace) :
  (forall message, P (ParserError message)) ->
  all_events P (check_args args).
Proof.
  intros H. unfold check_args.
  destruct (truthy (read args) && truthy (write args)).
  - now apply all_events_call.
  - destruct (negb (truthy (read args)) && negb (truthy (write args))).
    + now apply all_events_call.
    + constructor.
Qed.

Lemma all_events_get_device (h : host) (vendor product : Z) :
  P (HidEnumerate vendor product) ->
  all_events P (get_device h vendor product).
Proof.
  intros H. unfold all_events. rewrite get_device_eq.
  repeat constructor. exact H.
Qed.
End AllEvents.

Create HintDb events.

#[local] Hint Resolve all_events_bind all_events_ret all_events_lift
  all_events_call all_events_call_ all_events_emit all_events_print
  all_events_finally all_events_with_open all_events_if_set
  all_events_check_args all_events_get_device : events.

#[local] Hint Extern 1 (_ = false) => reflexivity : events.

(** Programs written with [bind] are checked event by event. *)
Ltac events := cbv beta; auto 30 with events.

(** The two [close] calls come last, and only after all that precedes
    them has returned. *)
Lemma main_split (h : host) (args : namespace) :
  main h args
  = (main_before_close h args ;;
     emit (HidClose dev_r) ;; emit (HidClose dev_d)).
Proof.
  unfold main, main_before_close, emit.
  destruct (check_args args) as [t0 [e0 | []]]; [reflexivity|].
  rewrite !bind_return. cbn [trace outcome fst snd].
  destruct (get_device h vendor product) as [t1 [e1 | [rp dp]]];
    [reflexivity|].
  rewrite !bind_return. cbn [trace outcome fst snd].
  destruct (call_ (HidOpenPath dev_r rp) (hid_open_path h dev_r rp))
    as [t2 [e2 | []]]; [reflexivity|].
  rewrite !bind_return. cbn [trace outcome fst snd].
  destruct (call_ (HidOpenPath dev_d dp) (hid_open_path h dev_d dp))
    as [t3 [e3 | []]]; [reflexivity|].
  rewrite !bind_return. cbn [trace outcome fst snd].
  destruct (if_set (read args) (read_keymap h args)) as [t4 [e4 | []]];
    [reflexivity|].
  rewrite !bind_return. cbn [trace outcome fst snd].
  destruct (if_set (write args) (write_keymap h args)) as [t5 [e5 | []]];
    [reflexivity|].
  cbn. now rewrite <- !app_assoc.
Qed.

(** ** The command line *)

Lemma truthy_some (name : str) : name <> "" -> truthy (Some name) = true.
Proof.
  intros H. unfold truthy. apply negb_true_iff. now apply String.eqb_neq.
Qed.

(** C7, as the spec states it, fails: with [-r ''] and [-w keymap.bin]
    both targets are set, and the program goes on to the device and writes
    the keymap, the empty read target counting as absent. *)
Lemma main_both_given_read_empty :
  let h := sample_host keyboard [] [Byte.xaa; Byte.xbb] in
  let args :=
    {| read := Some ""; write := Some "keymap.bin"; force := true |} in
  read args <> None /\ write args <> None
  /\ main h args
     = ([HidEnumerate 0x05ac 0x024f;
         HidOpenPath dev_r (b "hid#vid_05ac&pid_024f&mi_01&Col05");
         HidOpenPath dev_d (b "hid#vid_05ac&pid_024f&mi_01&Col06");
         FileOpen "keymap.bin" "rb"; FileRead "keymap.bin";
         FileClose "keymap.bin";
         PrintLine "Writing keymap from keymap.bin to keyboard.";
         HidSendFeatureReport dev_d
           [0x06; 0x04; 0xd8; 0x00; 0x40; 0x00; 0x00; 0x00; 0xaa; 0xbb];
         PrintLine "Sent 10 bytes to keyboard.";
         HidClose dev_r; HidClose dev_d],
        inr tt).
Proof. repeat split; discriminate. Qed.

(** C7, amended.  When the read and the write target are both given and
    not empty, or when each of them is absent or empty, [main] ends in
    [parser.error]: exit status 2, and no call to the device, the file
    system or standard output before it. *)
Theorem main_usage_error (h : host) (args : namespace) :
  (truthy (read args) = true /\ truthy (write args) = true)
  \/ (truthy (read args) = false /\ truthy (write args) = false) ->
  exists message,
    main h args = ([ParserError message], inl (SystemExit 2)).
Proof.
  intros [[Hr Hw] | [Hr Hw]]; unfold main, check_args; rewrite Hr, Hw;
    eexists; reflexivity.
Qed.

Lemma main_usage_error_witness :
  (exists message,
     main (sample_host keyboard [] [])
       {| read := Some "out.bin"; write := Some "in.bin"; force := true |}
     = ([ParserError message], inl (SystemExit 2)))
  /\ (exists message,
        main (sample_host keyboard [] [])
          {| read := None; write := None; force := true |}
        = ([ParserError message], inl (SystemExit 2))).
Proof.
  split.
  - apply (main_usage_error (sample_host keyboard [] [])
             {| read := Some "out.bin"; write := Some "in.bin";
                force := true |}).
    left. split; reflexivity.
  - apply (main_usage_error (sample_host keyboard [] [])
             {| read := None; write := None; force := true |}).
    right. split; reflexivity.
Defined.

(** ** The frames *)

(** C5.  A blob of at most 2047 bytes, framed for writing and then pruned
    as a response is on reading, comes back unchanged: the write header and
    the pruned prefix are both 8 long. *)
Theorem write_frame_pruned (blob : bytes) :
  (List.length blob <= 2047)%nat ->
  prune (set_keymap_header ++ list_of_bytes blob) = list_of_bytes blob
  /\ bytes_of_list (prune (set_keymap_header ++ list_of_bytes blob))
     = inr blob
  /\ List.length set_keymap_header = 8%nat
  /\ forall receive_result,
       prune receive_result
       = skipn (List.length set_keymap_header) receive_result.
Proof.
  intros _. repeat split.
  change (prune (set_keymap_header ++ list_of_bytes blob))
    with (list_of_bytes blob).
  apply bytes_of_list_of_bytes.
Qed.

Lemma write_frame_pruned_witness :
  prune (set_keymap_header ++ list_of_bytes [Byte.xaa; Byte.xbb])
  = list_of_bytes [Byte.xaa; Byte.xbb]
  /\ bytes_of_list
       (prune (set_keymap_header ++ list_of_bytes [Byte.xaa; Byte.xbb]))
     = inr [Byte.xaa; Byte.xbb].
Proof.
  destruct (write_frame_pruned [Byte.xaa; Byte.xbb]) as (H1 & H2 & _).
  - simpl. lia.
  - split; [exact H1 | exact H2].
Defined.

(** ** The protocol engine *)

Lemma get_device_outcome h vendor product selection :
  outcome (get_device h vendor product) = inr selection ->
  get_device h vendor product = ([HidEnumerate vendor product], inr selection).
Proof. rewrite get_device_eq. unfold outcome. cbn [snd]. now intros ->. Qed.

Lemma prune_short (response : bytes) :
  (List.length response < 8)%nat -> skipn 8 response = [].
Proof. intros H. apply skipn_all2. lia. Qed.

Lemma bytes_of_pruned (response : bytes) :
  bytes_of_list (prune (list_of_bytes response)) = inr (skipn 8 response).
Proof.
  unfold prune. rewrite skipn_list_of_bytes. apply bytes_of_list_of_bytes.
Qed.

Lemma if_set_true (o : option str) (body : str -> M unit) (name : str) :
  o = Some name -> name <> "" -> if_set o body = body name.
Proof. intros -> H. unfold if_set. now rewrite (truthy_some _ H). Qed.

Lemma if_set_false (o : option str) (body : str -> M unit) :
  truthy o = false -> if_set o body = ret tt.
Proof. intros H. unfold if_set. destruct o; [now rewrite H | reflexivity]. Qed.

Lemma check_args_one (args : namespace) :
  truthy (read args) <> truthy (write args) -> check_args args = ret tt.
Proof.
  unfold check_args.
  destruct (truthy (read args)), (truthy (write args)); intros H;
    now try reflexivity.
Qed.

(** One step of a run: sequencing is computed, the host's answers stay. *)
Ltac run :=
  cbn [andb negb bind ret lift call call_ print emit app finally with_open].

(** The feature-report calls of a forced read, whatever the transport and
    the file system answer once the handles are open: the read header on
    [r], and then, when that call returns, the request for report 6 of at
    most 2047 bytes on [d]; nothing else. *)
Lemma main_forced_read_feature_reports
    (h : host) (args : namespace) (output_file : str)
    (request_path data_path : bytes) :
  read args = Some output_file -> output_file <> "" ->
  truthy (write args) = false ->
  force args = true ->
  outcome (get_device h vendor product) = inr (request_path, data_path) ->
  hid_open_path h dev_r request_path = None ->
  hid_open_path h dev_d data_path = None ->
  filter is_feature_report (trace (main h args))
  = HidSendFeatureReport dev_r [0x05; 0x84; 0xd8; 0x00; 0x00; 0x00]
    :: match hid_send_feature_report h dev_r
               [0x05; 0x84; 0xd8; 0x00; 0x00; 0x00] with
       | inr _ => [HidGetFeatureReport dev_d 0x06 0x7ff]
       | inl _ => []
       end.
Proof.
  intros Hread Hname Hwrite Hforce Hdev Hr Hd.
  unfold main.
  rewrite check_args_one, (get_device_outcome _ _ _ _ Hdev),
    (if_set_true _ _ _ Hread Hname), (if_set_false _ _ Hwrite).
  2: { rewrite Hread, Hwrite, (truthy_some _ Hname). discriminate. }
  unfold read_keymap, with_open. rewrite Hforce.
  change get_keymap_header with [0x05; 0x84; 0xd8; 0x00; 0x00; 0x00].
  change max_request_size with 0x7ff.
  run. rewrite Hr, Hd. run.
  destruct (hid_send_feature_report h dev_r [5; 132; 216; 0; 0; 0])
    as [e | send_result]; [reflexivity|].
  run.
  destruct (hid_get_feature_report h dev_d 6 2047) as [e | response];
    [reflexivity|].
  run. rewrite bytes_of_pruned.
  destruct (file_open h output_file "wb"); [reflexivity|].
  run. now destruct (file_write h output_file (skipn 8 response)).
Qed.

(** C3.  A forced read, on a host where resolution, the two opens, the two
    feature-report calls and the output file succeed: the read header goes
    out as a feature report on [r], the handle opened on the request path;
    then a feature report with id 6 and maximum length 2047 is asked of [d],
    the handle opened on the data path; then the response without its first
    8 bytes is written to the output file.  A response shorter than 8 bytes
    gives an empty blob, with no exception. *)
Theorem main_forced_read
    (h : host) (args : namespace) (output_file : str)
    (request_path data_path : bytes) (send_result : Z) (response : bytes) :
  read args = Some output_file -> output_file <> "" ->
  truthy (write args) = false ->
  force args = true ->
  outcome (get_device h vendor product) = inr (request_path, data_path) ->
  hid_open_path h dev_r request_path = None ->
  hid_open_path h dev_d data_path = None ->
  hid_send_feature_report h dev_r [0x05; 0x84; 0xd8; 0x00; 0x00; 0x00]
  = inr send_result ->
  hid_get_feature_report h dev_d 0x06 0x7ff = inr response ->
  file_open h output_file "wb" = None ->
  file_write h output_file (skipn 8 response) = None ->
  main h args
  = ([HidEnumerate vendor product;
      HidOpenPath dev_r request_path;
      HidOpenPath dev_d data_path;
      PrintLine ("Reading keymap from keyboard and saving to " +++ output_file
             +++ ".");
      HidSendFeatureReport dev_r [0x05; 0x84; 0xd8; 0x00; 0x00; 0x00];
      PrintLine ("Sent " +++ str_of_int send_result +++ " bytes to keyboard.");
      HidGetFeatureReport dev_d 0x06 0x7ff;
      PrintLine ("Received " +++ str_of_int (len (list_of_bytes response))
             +++ " bytes from keyboard.");
      FileOpen output_file "wb";
      FileWrite output_file (skipn 8 response);
      FileClose output_file;
      HidClose dev_r; HidClose dev_d],
     inr tt)
  /\ ((List.length response < 8)%nat -> skipn 8 response = []).
Proof.
  intros Hread Hname Hwrite Hforce Hdev Hr Hd Hsend Hget Hopen Hfile.
  split; [|apply prune_short].
  unfold main.
  rewrite check_args_one, (get_device_outcome _ _ _ _ Hdev),
    (if_set_true _ _ _ Hread Hname), (if_set_false _ _ Hwrite).
  2: { rewrite Hread, Hwrite, (truthy_some _ Hname). discriminate. }
  unfold read_keymap, with_open. rewrite Hforce.
  change get_keymap_header with [0x05; 0x84; 0xd8; 0x00; 0x00; 0x00].
  change max_request_size with 0x7ff.
  run. rewrite Hr, Hd, Hsend, Hget, Hopen.
  run. rewrite bytes_of_pruned, Hfile. reflexivity.
Qed.

Lemma main_forced_read_witness :
  main (sample_host keyboard (b "0123456789") [])
    {| read := Some "out.bin"; write := None; force := true |}
  = ([HidEnumerate 0x05ac 0x024f;
      HidOpenPath dev_r (b "hid#vid_05ac&pid_024f&mi_01&Col05");
      HidOpenPath dev_d (b "hid#vid_05ac&pid_024f&mi_01&Col06");
      PrintLine "Reading keymap from keyboard and saving to out.bin.";
      HidSendFeatureReport dev_r [0x05; 0x84; 0xd8; 0x00; 0x00; 0x00];
      PrintLine "Sent 6 bytes to keyboard.";
      HidGetFeatureReport dev_d 0x06 0x7ff;
      PrintLine "Received 10 bytes from keyboard.";
      FileOpen "out.bin" "wb";
      FileWrite "out.bin" (b "89");
      FileClose "out.bin";
      HidClose dev_r; HidClose dev_d],
     inr tt).
Proof.
  refine (proj1 (main_forced_read
                   (sample_host keyboard (b "0123456789") [])
                   {| read := Some "out.bin"; write := None; force := true |}
                   "out.bin"
                   (b "hid#vid_05ac&pid_024f&mi_01&Col05")
                   (b "hid#vid_05ac&pid_024f&mi_01&Col06")
                   6 (b "0123456789") _ _ _ _ _ _ _ _ _ _ _));
    try reflexivity.
  discriminate.
Defined.

(** C6.  A forced write, on a host where resolution, the two opens and the
    input file succeed, for a file of any length: the frame is the write
    header followed by the whole file, and it goes out as one feature report
    on [d], the handle opened on the data path, whatever its length.  What
    follows depends on the transport only: it returns a count, which is
    printed before the handles are closed, or it raises. *)
Theorem main_forced_write
    (h : host) (args : namespace) (input_file : str)
    (request_path data_path : bytes) (blob : bytes) :
  write args = Some input_file -> input_file <> "" ->
  truthy (read args) = false ->
  force args = true ->
  outcome (get_device h vendor product) = inr (request_path, data_path) ->
  hid_open_path h dev_r request_path = None ->
  hid_open_path h dev_d data_path = None ->
  file_open h input_file "rb" = None ->
  file_read h input_file = inr blob ->
  let frame :=
    [0x06; 0x04; 0xd8; 0x00; 0x40; 0x00; 0x00; 0x00] ++ list_of_bytes blob in
  let sent := hid_send_feature_report h dev_d frame in
  main h args
  = ([HidEnumerate vendor product;
      HidOpenPath dev_r request_path;
      HidOpenPath dev_d data_path;
      FileOpen input_file "rb"; FileRead input_file; FileClose input_file;
      PrintLine ("Writing keymap from " +++ input_file +++ " to keyboard.");
      HidSendFeatureReport dev_d frame]
     ++ match sent with
        | inr send_result =>
            [PrintLine ("Sent " +++ str_of_int send_result
                    +++ " bytes to keyboard.");
             HidClose dev_r; HidClose dev_d]
        | inl _ => []
        end,
     match sent with
     | inr _ => inr tt
     | inl e => inl e
     end).
Proof.
  intros Hwrite Hname Hread Hforce Hdev Hr Hd Hopen Hfile frame sent.
  unfold main.
  rewrite check_args_one, (get_device_outcome _ _ _ _ Hdev),
    (if_set_true _ _ _ Hwrite Hname), (if_set_false _ _ Hread).
  2: { rewrite Hread, Hwrite, (truthy_some _ Hname). discriminate. }
  unfold write_keymap, with_open. rewrite Hforce.
  run. rewrite Hr, Hd, Hopen, Hfile. run.
  change (set_keymap_header ++ list_of_bytes blob) with frame.
  fold sent. now destruct sent.
Qed.

Lemma main_forced_write_witness :
  main (sample_host keyboard [] [Byte.xaa; Byte.xbb])
    {| read := None; write := Some "keymap.bin"; force := true |}
  = ([HidEnumerate 0x05ac 0x024f;
      HidOpenPath dev_r (b "hid#vid_05ac&pid_024f&mi_01&Col05");
      HidOpenPath dev_d (b "hid#vid_05ac&pid_024f&mi_01&Col06");
      FileOpen "keymap.bin" "rb"; FileRead "keymap.bin";
      FileClose "keymap.bin";
      PrintLine "Writing keymap from keymap.bin to keyboard.";
      HidSendFeatureReport dev_d
        [0x06; 0x04; 0xd8; 0x00; 0x40; 0x00; 0x00; 0x00; 0xaa; 0xbb];
      PrintLine "Sent 10 bytes to keyboard.";
      HidClose dev_r; HidClose dev_d],
     inr tt).
Proof.
  apply (main_forced_write
           (sample_host keyboard [] [Byte.xaa; Byte.xbb])
           {| read := None; write := Some "keymap.bin"; force := true |}
           "keymap.bin"
           (b "hid#vid_05ac&pid_024f&mi_01&Col05")
           (b "hid#vid_05ac&pid_024f&mi_01&Col06")
           [Byte.xaa; Byte.xbb]); try reflexivity.
  discriminate.
Defined.

(** ** Dry runs *)

Lemma len_write_keymap_buffer (blob : bytes) :
  len (set_keymap_header ++ list_of_bytes blob) = 8 + len blob.
Proof.
  unfold len, list_of_bytes. rewrite length_app, length_map.
  change (List.length set_keymap_header) with 8%nat. lia.
Qed.

(** C4, as the spec states it, fails: a dry-run read prints the header on
    one line, bytes separated by single spaces, without offsets; the line
    "0000  05 84 d8 00" is not printed. *)
Lemma main_dry_run_read_one_line :
  let h := sample_host keyboard [] [] in
  let args := {| read := Some "out.bin"; write := None; force := false |} in
  filter is_print (trace (main h args))
  = [PrintLine "Command to read keymap and save to out.bin (no action taken, use -f to execute).";
     PrintLine "05 84 d8 00 00 00";
     PrintLine "Length: 6 bytes"]
  /\ ~ In (PrintLine "0000  05 84 d8 00") (trace (main h args)).
Proof.
  split; [reflexivity|].
  cbn. intuition discriminate.
Qed.

(** C4, amended.  In a dry run the frame is printed by [list_to_hex], as one
    line of two-digit lower-case hexadecimal bytes separated by single
    spaces, followed by the line "Length: N bytes": for a read, the line
    "05 84 d8 00 00 00" and a length of 6; for a write of the file contents
    [blob], the write header followed by the blob and a length of 8 plus the
    length of the blob, which for the blob [0xAA, 0xBB] is the line
    "06 04 d8 00 40 00 00 00 aa bb" and a length of 10.  The dump in columns
    of 4 bytes with 4-digit offsets is what [format_to_hex_template]
    renders, which [main] does not call: for the read header the two lines
    "0000  05 84 d8 00" and "0004  00 00", and for that write frame a first
    line "0000  06 04 d8 00". *)
Theorem main_dry_run_dump
    (h : host) (args : namespace) (request_path data_path : bytes) :
  force args = false ->
  outcome (get_device h vendor product) = inr (request_path, data_path) ->
  hid_open_path h dev_r request_path = None ->
  hid_open_path h dev_d data_path = None ->
  (forall output_file,
      read args = Some output_file -> output_file <> "" ->
      truthy (write args) = false ->
      main h args
      = ([HidEnumerate vendor product;
          HidOpenPath dev_r request_path;
          HidOpenPath dev_d data_path;
          PrintLine ("Command to read keymap and save to " +++ output_file
                 +++ " (no action taken, use -f to execute).");
          PrintLine "05 84 d8 00 00 00";
          PrintLine "Length: 6 bytes";
          HidClose dev_r; HidClose dev_d],
         inr tt))
  /\ (forall input_file blob,
        write args = Some input_file -> input_file <> "" ->
        truthy (read args) = false ->
        file_open h input_file "rb" = None ->
        file_read h input_file = inr blob ->
        main h args
        = ([HidEnumerate vendor product;
            HidOpenPath dev_r request_path;
            HidOpenPath dev_d data_path;
            FileOpen input_file "rb"; FileRead input_file;
            FileClose input_file;
            PrintLine ("Command to write keymap from " +++ input_file
                   +++ " to keyboard (no action taken, use -f to execute).");
            PrintLine (list_to_hex (set_keymap_header ++ list_of_bytes blob));
            PrintLine ("Length: " +++ str_of_int (8 + len blob) +++ " bytes");
            HidClose dev_r; HidClose dev_d],
           inr tt))
  /\ list_to_hex (set_keymap_header ++ list_of_bytes [Byte.xaa; Byte.xbb])
     = "06 04 d8 00 40 00 00 00 aa bb"
  /\ str_of_int (8 + len [Byte.xaa; Byte.xbb]) = "10"
  /\ format_to_hex_template get_keymap_header
     = "0000  05 84 d8 00" +++ newline +++ "0004  00 00" +++ newline
  /\ format_to_hex_template
       (set_keymap_header ++ list_of_bytes [Byte.xaa; Byte.xbb])
     = "0000  06 04 d8 00" +++ newline +++ "0004  40 00 00 00" +++ newline
       +++ "0008  aa bb" +++ newline.
Proof.
  intros Hforce Hdev Hr Hd.
  split; [|split; [|repeat split]].
  - intros output_file Hread Hname Hwrite. unfold main.
    rewrite check_args_one, (get_device_outcome _ _ _ _ Hdev),
      (if_set_true _ _ _ Hread Hname), (if_set_false _ _ Hwrite).
    2: { rewrite Hread, Hwrite, (truthy_some _ Hname). discriminate. }
    unfold read_keymap. rewrite Hforce.
    run. rewrite Hr, Hd. reflexivity.
  - intros input_file blob Hwrite Hname Hread Hopen Hfile. unfold main.
    rewrite check_args_one, (get_device_outcome _ _ _ _ Hdev),
      (if_set_true _ _ _ Hwrite Hname), (if_set_false _ _ Hread).
    2: { rewrite Hread, Hwrite, (truthy_some _ Hname). discriminate. }
    unfold write_keymap, with_open. rewrite Hforce.
    run. rewrite Hr, Hd, Hopen, Hfile. run.
    rewrite len_write_keymap_buffer. reflexivity.
Qed.

Lemma main_dry_run_dump_witness :
  main (sample_host keyboard [] [Byte.xaa; Byte.xbb])
    {| read := None; write := Some "keymap.bin"; force := false |}
  = ([HidEnumerate 0x05ac 0x024f;
      HidOpenPath dev_r (b "hid#vid_05ac&pid_024f&mi_01&Col05");
      HidOpenPath dev_d (b "hid#vid_05ac&pid_024f&mi_01&Col06");
      FileOpen "keymap.bin" "rb"; FileRead "keymap.bin";
      FileClose "keymap.bin";
      PrintLine "Command to write keymap from keymap.bin to keyboard (no action taken, use -f to execute).";
      PrintLine "06 04 d8 00 40 00 00 00 aa bb";
      PrintLine "Length: 10 bytes";
      HidClose dev_r; HidClose dev_d],
     inr tt).
Proof.
  refine (proj1 (proj2 (main_dry_run_dump
                          (sample_host keyboard [] [Byte.xaa; Byte.xbb])
                          {| read := None; write := Some "keymap.bin";
                             force := false |}
                          (b "hid#vid_05ac&pid_024f&mi_01&Col05")
                          (b "hid#vid_05ac&pid_024f&mi_01&Col06")
                          _ _ _ _))
            "keymap.bin" [Byte.xaa; Byte.xbb] _ _ _ _ _);
    try reflexivity.
  discriminate.
Defined.

Lemma read_keymap_dry_run_events (h : host) (args : namespace) (name : str) :
  force args = false ->
  all_events (fun ev => is_feature_report ev = false) (read_keymap h args name).
Proof. intros Hforce. unfold read_keymap. rewrite Hforce. events. Qed.

Lemma write_keymap_dry_run_events (h : host) (args : namespace) (name : str) :
  force args = false ->
  all_events (fun ev => is_feature_report ev = false)
    (write_keymap h args name).
Proof. intros Hforce. unfold write_keymap. rewrite Hforce. events. Qed.

(** C10.  A dry run (no force flag, one of the two targets given) makes no
    feature-report call, yet it starts with the enumeration and fails as
    resolution fails; when resolution succeeds and the handles open, the two
    opens come next, before anything is printed; and a dry-run write then
    opens and reads the input file, failing as the file fails to open or to
    be read. *)
Theorem main_dry_run_touches_host (h : host) (args : namespace) :
  force args = false ->
  truthy (read args) <> truthy (write args) ->
  all_events (fun ev => is_feature_report ev = false) (main h args)
  /\ (exists rest, trace (main h args) = HidEnumerate vendor product :: rest)
  /\ (forall e,
        outcome (get_device h vendor product) = inl e ->
        main h args = ([HidEnumerate vendor product], inl e))
  /\ (forall request_path data_path,
        outcome (get_device h vendor product)
        = inr (request_path, data_path) ->
        hid_open_path h dev_r request_path = None ->
        hid_open_path h dev_d data_path = None ->
        (exists rest,
           trace (main h args)
           = HidEnumerate vendor product
             :: HidOpenPath dev_r request_path
             :: HidOpenPath dev_d data_path :: rest)
        /\ forall input_file,
             write args = Some input_file -> input_file <> "" ->
             (forall e,
                 file_open h input_file "rb" = Some e ->
                 main h args
                 = ([HidEnumerate vendor product;
                     HidOpenPath dev_r request_path;
                     HidOpenPath dev_d data_path;
                     FileOpen input_file "rb"],
                    inl e))
             /\ (forall e,
                   file_open h input_file "rb" = None ->
                   file_read h input_file = inl e ->
                   main h args
                   = ([HidEnumerate vendor product;
                       HidOpenPath dev_r request_path;
                       HidOpenPath dev_d data_path;
                       FileOpen input_file "rb"; FileRead input_file;
                       FileClose input_file],
                      inl e))
             /\ (file_open h input_file "rb" = None ->
                 exists rest,
                   trace (main h args)
                   = HidEnumerate vendor product
                     :: HidOpenPath dev_r request_path
                     :: HidOpenPath dev_d data_path
                     :: FileOpen input_file "rb" :: FileRead input_file
                     :: FileClose input_file :: rest)).
Proof.
  intros Hforce Hone.
  split; [|split; [|split]].
  - pose proof (fun name => read_keymap_dry_run_events h args name Hforce).
    pose proof (fun name => write_keymap_dry_run_events h args name Hforce).
    unfold main.
    apply all_events_bind; [events | intros _].
    apply all_events_bind; [events | intros [rp dp]]. events.
  - unfold main. rewrite (check_args_one _ Hone), get_device_eq.
    destruct (select_paths vendor product (hid_enumerate h vendor product))
      as [e | [rp dp]].
    + now exists [].
    + rewrite !bind_return. cbn [trace outcome fst snd ret app].
      eexists. reflexivity.
  - intros e He. unfold main.
    rewrite (check_args_one _ Hone), get_device_eq in *.
    unfold outcome in He. cbn [snd] in He. now rewrite He.
  - intros request_path data_path Hdev Hr Hd.
    assert (Hmain :
      main h args
      = (([HidEnumerate vendor product; HidOpenPath dev_r request_path;
           HidOpenPath dev_d data_path], inr tt) ;;
         if_set (read args) (read_keymap h args) ;;
         if_set (write args) (write_keymap h args) ;;
         emit (HidClose dev_r) ;; emit (HidClose dev_d))).
    { unfold main.
      rewrite (check_args_one _ Hone), (get_device_outcome _ _ _ _ Hdev).
      run. rewrite Hr, Hd. unfold bind.
      now destruct (if_set (read args) (read_keymap h args))
        as [t0 [e0 | []]];
        [|destruct (if_set (write args) (write_keymap h args))
            as [t1 [e1 | []]]]. }
    split.
    + rewrite Hmain, bind_return. cbn [trace fst app]. eexists. reflexivity.
    + intros input_file Hwrite Hname.
      assert (Hread : truthy (read args) = false).
      { rewrite Hwrite, (truthy_some _ Hname) in Hone.
        now destruct (truthy (read args)). }
      rewrite Hmain, (if_set_false _ _ Hread),
        (if_set_true _ _ _ Hwrite Hname).
      unfold write_keymap, with_open. rewrite Hforce.
      split; [|split].
      * intros e He. rewrite He. reflexivity.
      * intros e Ho He. rewrite Ho, He. reflexivity.
      * intros Ho. rewrite Ho.
        destruct (file_read h input_file) as [e | blob];
          eexists; reflexivity.
Qed.

Lemma main_dry_run_touches_host_witness :
  let dry_read :=
    {| read := Some "out.bin"; write := None; force := false |} in
  let dry_write :=
    {| read := None; write := Some "keymap.bin"; force := false |} in
  let request_path := b "hid#vid_05ac&pid_024f&mi_01&Col05" in
  let data_path := b "hid#vid_05ac&pid_024f&mi_01&Col06" in
  main (sample_host [] [] []) dry_read
  = ([HidEnumerate 0x05ac 0x024f],
     inl (Exception "No devices matching VID: 05ac PID: 024f found"))
  /\ (exists rest,
        trace (main (sample_host keyboard [] []) dry_read)
        = HidEnumerate 0x05ac 0x024f
          :: HidOpenPath dev_r request_path
          :: HidOpenPath dev_d data_path :: rest)
  /\ (exists rest,
        trace (main (sample_host keyboard [] [Byte.xaa; Byte.xbb]) dry_write)
        = HidEnumerate 0x05ac 0x024f
          :: HidOpenPath dev_r request_path
          :: HidOpenPath dev_d data_path
          :: FileOpen "keymap.bin" "rb" :: FileRead "keymap.bin"
          :: FileClose "keymap.bin" :: rest)
  /\ main (missing_file_host keyboard) dry_write
     = ([HidEnumerate 0x05ac 0x024f;
         HidOpenPath dev_r request_path;
         HidOpenPath dev_d data_path;
         FileOpen "keymap.bin" "rb"],
        inl (OSError "No such file or directory"))
  /\ all_events (fun ev => is_feature_report ev = false)
       (main (sample_host keyboard [] [Byte.xaa; Byte.xbb]) dry_write).
Proof.
  intros dry_read dry_write request_path data_path.
  assert (Hread : truthy (read dry_read) <> truthy (write dry_read))
    by (simpl; discriminate).
  assert (Hwrite : truthy (read dry_write) <> truthy (write dry_write))
    by (simpl; discriminate).
  split; [|split; [|split; [|split]]].
  - exact (proj1 (proj2 (proj2 (main_dry_run_touches_host
                                  (sample_host [] [] []) dry_read
                                  eq_refl Hread))) _ eq_refl).
  - exact (proj1 (proj2 (proj2 (proj2 (main_dry_run_touches_host
                                         (sample_host keyboard [] [])
                                         dry_read eq_refl Hread)))
                    request_path data_path eq_refl eq_refl eq_refl)).
  - refine (proj2 (proj2 (proj2 (proj2 (proj2 (proj2
              (main_dry_run_touches_host
                 (sample_host keyboard [] [Byte.xaa; Byte.xbb])
                 dry_write eq_refl Hwrite)))
              request_path data_path eq_refl eq_refl eq_refl)
              "keymap.bin" eq_refl _)) eq_refl).
    discriminate.
  - refine (proj1 (proj2 (proj2 (proj2 (proj2
              (main_dry_run_touches_host
                 (missing_file_host keyboard)
                 dry_write eq_refl Hwrite)))
              request_path data_path eq_refl eq_refl eq_refl)
              "keymap.bin" eq_refl _) _ eq_refl).
    discriminate.
  - exact (proj1 (main_dry_run_touches_host
                    (sample_host keyboard [] [Byte.xaa; Byte.xbb])
                    dry_write eq_refl Hwrite)).
Defined.

(** ** The handles *)

Lemma read_keymap_no_close (h : host) (args : namespace) (name : str) :
  all_events (fun ev => is_close ev = false) (read_keymap h args name).
Proof. unfold read_keymap. destruct (force args); events. Qed.

Lemma write_keymap_no_close (h : host) (args : namespace) (name : str) :
  all_events (fun ev => is_close ev = false) (write_keymap h args name).
Proof. unfold write_keymap. destruct (force args); events. Qed.

Lemma main_before_close_no_close (h : host) (args : namespace) :
  all_events (fun ev => is_close ev = false) (main_before_close h args).
Proof.
  pose proof (read_keymap_no_close h args).
  pose proof (write_keymap_no_close h args).
  unfold main_before_close.
  apply all_events_bind; [events | intros _].
  apply all_events_bind; [events | intros [rp dp]]. events.
Qed.

(** C8, as the spec states it, fails: in this forced read both handles are
    opened, then reading the feature report raises, and the program ends
    with that exception without a [close] on either handle. *)
Lemma main_read_error_no_close :
  let h := read_error_host keyboard in
  let args := {| read := Some "out.bin"; write := None; force := true |} in
  main h args
  = ([HidEnumerate 0x05ac 0x024f;
      HidOpenPath dev_r (b "hid#vid_05ac&pid_024f&mi_01&Col05");
      HidOpenPath dev_d (b "hid#vid_05ac&pid_024f&mi_01&Col06");
      PrintLine "Reading keymap from keyboard and saving to out.bin.";
      HidSendFeatureReport dev_r [0x05; 0x84; 0xd8; 0x00; 0x00; 0x00];
      PrintLine "Sent 6 bytes to keyboard.";
      HidGetFeatureReport dev_d 0x06 0x7ff],
     inl (OSError "read error"))
  /\ filter is_close (trace (main h args)) = [].
Proof. split; reflexivity. Qed.

(** C8, amended.  On every path on which [main] returns, which is every
    path on which both handles were opened and the read or write then ran
    to its end without an exception, the last two host calls are the close
    of [r] and the close of [d], and there is no other close.  On a path
    that ends in an exception, no handle is closed by the program. *)
Theorem main_closes_on_return (h : host) (args : namespace) :
  (outcome (main h args) = inr tt ->
   exists request_path data_path rest,
     trace (main h args)
     = HidEnumerate vendor product
       :: HidOpenPath dev_r request_path
       :: HidOpenPath dev_d data_path
       :: rest ++ [HidClose dev_r; HidClose dev_d]
     /\ Forall (fun ev => is_close ev = false) rest)
  /\ (forall e,
        outcome (main h args) = inl e ->
        Forall (fun ev => is_close ev = false) (trace (main h args))).
Proof.
  pose proof (main_before_close_no_close h args) as Hbody.
  rewrite main_split. unfold all_events in Hbody.
  destruct (main_before_close h args) as [t [e | []]] eqn:Ebody;
    cbn [trace fst] in Hbody.
  - split; [discriminate|]. intros e' _. exact Hbody.
  - split; [|discriminate]. intros _.
    rewrite bind_return. cbn [trace outcome fst snd emit bind app].
    revert Ebody. unfold main_before_close.
    destruct (check_args args) as [t0 [e0 | []]] eqn:Echeck;
      [discriminate|].
    assert (Ht0 : t0 = []).
    { revert Echeck. unfold check_args, parser_error, call, ret.
      destruct (truthy (read args) && truthy (write args));
        [discriminate|].
      destruct (negb (truthy (read args)) && negb (truthy (write args)));
        [discriminate|].
      now intros [= <-]. }
    subst t0. rewrite get_device_eq.
    destruct (select_paths vendor product (hid_enumerate h vendor product))
      as [e1 | [rp dp]]; [discriminate|].
    rewrite !bind_return. cbn [trace outcome fst snd app].
    destruct (hid_open_path h dev_r rp) as [e2|]; [discriminate|].
    cbn [call_]. rewrite !bind_return. cbn [trace outcome fst snd app].
    destruct (hid_open_path h dev_d dp) as [e3|]; [discriminate|].
    cbn [call_]. rewrite !bind_return. cbn [trace outcome fst snd app].
    intros [= <- Hout]. exists rp, dp.
    eexists. split; [reflexivity|].
    now inversion Hbody as [|? ? _ [|? ? _ [|? ? _ Hrest]]].
Qed.

Lemma main_closes_on_return_witness :
  exists request_path data_path rest,
    trace (main (sample_host keyboard (b "0123456789") [])
             {| read := Some "out.bin"; write := None; force := true |})
    = HidEnumerate vendor product
      :: HidOpenPath dev_r request_path
      :: HidOpenPath dev_d data_path
      :: rest ++ [HidClose dev_r; HidClose dev_d]
    /\ Forall (fun ev => is_close ev = false) rest.
Proof.
  apply (main_closes_on_return
           (sample_host keyboard (b "0123456789") [])
           {| read := Some "out.bin"; write := None; force := true |}).
  reflexivity.
Defined.

(** * Further properties of the code *)

(** ** Resolution *)

Lemma Permutation_filter {A} (f : A -> bool) (l l' : list A) :
  Permutation l l' -> Permutation (filter f l) (filter f l').
Proof.
  induction 1 as [|x l l' _ IH|x y l|l l' l'' _ IH1 _ IH2]; simpl.
  - constructor.
  - destruct (f x); [now constructor | exact IH].
  - destruct (f x), (f y); try apply Permutation_refl. apply perm_swap.
  - now transitivity (filter f l').
Qed.

Lemma select_paths_success vendor product devices selection :
  select_paths vendor product devices = inr selection
  <-> exists x y,
        members Request devices = [x] /\ members Data devices = [y]
        /\ selection = (path x, path y).
Proof.
  pose proof (select_paths_cases vendor product devices) as Hcases.
  destruct (select_paths vendor product devices) as [e | [rp dp]].
  - split; [discriminate|]. intros (x & y & Hx & Hy & _). exfalso.
    destruct Hcases as [[Hnil _] | [(ch & x' & y' & rest & Hm & _)
                      | [(_ & Hm & _) | (_ & _ & Hm & _)]]].
    + rewrite Hnil in Hx. discriminate.
    + destruct ch; congruence.
    + congruence.
    + congruence.
  - destruct Hcases as (x & y & Hx & Hy & -> & ->). split.
    + intros [= <-]. now exists x, y.
    + intros (x' & y' & Hx' & Hy' & ->). congruence.
Qed.

(** X1.  What [get_device] returns: the request path has the request
    marker, the data path has the data marker and not the request marker, so
    the two paths differ and neither is empty; and each is the path of an
    enumerated descriptor that passes the filter. *)
Theorem get_device_selection
    (h : host) (vendor product : Z) (request_path data_path : bytes) :
  outcome (get_device h vendor product) = inr (request_path, data_path) ->
  contains request_marker request_path = true
  /\ contains data_marker data_path = true
  /\ contains request_marker data_path = false
  /\ request_path <> data_path
  /\ request_path <> [] /\ data_path <> []
  /\ exists x y,
       In x (hid_enumerate h vendor product)
       /\ In y (hid_enumerate h vendor product)
       /\ is_vendor_collection x = true /\ is_vendor_collection y = true
       /\ path x = request_path /\ path y = data_path.
Proof.
  rewrite get_device_eq. unfold outcome. cbn [snd]. intros Hsel.
  apply select_paths_success in Hsel.
  destruct Hsel as (x & y & Hx & Hy & [= -> ->]).
  assert (Hinx : In x (members Request (hid_enumerate h vendor product)))
    by (rewrite Hx; now left).
  assert (Hiny : In y (members Data (hid_enumerate h vendor product)))
    by (rewrite Hy; now left).
  apply filter_In in Hinx, Hiny.
  destruct Hinx as [Hinx Hrx]. destruct Hiny as [Hiny Hdy].
  unfold is_request, is_data, has_marker in Hrx, Hdy.
  apply andb_true_iff in Hrx. destruct Hrx as [Hvx Hmx].
  apply andb_true_iff in Hdy. destruct Hdy as [Hdy Hmy].
  apply andb_true_iff in Hdy. destruct Hdy as [Hvy Hny].
  apply negb_true_iff in Hny.
  repeat split; trivial.
  - intros E. rewrite E in Hmx. congruence.
  - intros E. rewrite E in Hmx. discriminate.
  - intros E. rewrite E in Hmy. discriminate.
  - now exists x, y.
Qed.

Lemma get_device_selection_witness :
  contains request_marker (b "hid#vid_05ac&pid_024f&mi_01&Col05") = true
  /\ b "hid#vid_05ac&pid_024f&mi_01&Col05"
     <> b "hid#vid_05ac&pid_024f&mi_01&Col06".
Proof.
  destruct (get_device_selection (sample_host keyboard [] []) vendor product
              (b "hid#vid_05ac&pid_024f&mi_01&Col05")
              (b "hid#vid_05ac&pid_024f&mi_01&Col06"))
    as (H1 & _ & _ & H2 & _).
  - reflexivity.
  - split; [exact H1 | exact H2].
Defined.

(** X2.  Whether resolution succeeds, and what it returns, does not depend
    on the order in which the host enumerates the descriptors. *)
Theorem get_device_order_irrelevant
    (h h' : host) (vendor product : Z) (selection : bytes * bytes) :
  Permutation (hid_enumerate h vendor product)
              (hid_enumerate h' vendor product) ->
  (outcome (get_device h vendor product) = inr selection
   <-> outcome (get_device h' vendor product) = inr selection).
Proof.
  intros Hperm. rewrite !get_device_eq. unfold outcome. cbn [snd].
  rewrite !select_paths_success.
  assert (Hone : forall ch l l' x,
             Permutation l l' -> members ch l = [x] -> members ch l' = [x]).
  { intros ch l l' x Hp Hm.
    pose proof (Permutation_filter
                  (match ch with Request => is_request | Data => is_data end)
                  l l' Hp) as Hf.
    fold (members ch l) in Hf. fold (members ch l') in Hf.
    rewrite Hm in Hf. now apply Permutation_length_1_inv in Hf. }
  split; intros (x & y & Hx & Hy & ->); exists x, y; repeat split.
  - exact (Hone Request _ _ x Hperm Hx).
  - exact (Hone Data _ _ y Hperm Hy).
  - exact (Hone Request _ _ x (Permutation_sym Hperm) Hx).
  - exact (Hone Data _ _ y (Permutation_sym Hperm) Hy).
Qed.

Lemma get_device_order_irrelevant_witness :
  outcome (get_device (sample_host (rev keyboard) [] []) vendor product)
  = inr (b "hid#vid_05ac&pid_024f&mi_01&Col05",
         b "hid#vid_05ac&pid_024f&mi_01&Col06").
Proof.
  apply (get_device_order_irrelevant
           (sample_host keyboard [] []) (sample_host (rev keyboard) [] [])
           vendor product).
  - apply perm_swap.
  - reflexivity.
Defined.

(** X3.  When the first two enumerated descriptors both belong to the
    request channel (or both to the data channel), resolution fails at the
    second; and when one of the two paths is not UTF-8 the failure is not
    the message naming the paths but the [UnicodeDecodeError] of decoding
    the first of them that is not UTF-8. *)
Theorem get_device_undecodable_duplicate
    (h : host) (vendor product : Z) (ch : channel)
    (x y : device_info) (rest : list device_info) :
  hid_enumerate h vendor product = x :: y :: rest ->
  belongs ch x = true -> belongs ch y = true ->
  outcome (get_device h vendor product)
  = inl (multiple_found (multiple_prefix ch) (path x) (path y))
  /\ (utf8_well_formed (path x) = false ->
      outcome (get_device h vendor product)
      = inl (UnicodeDecodeError (path x)))
  /\ (utf8_well_formed (path x) = true ->
      utf8_well_formed (path y) = false ->
      outcome (get_device h vendor product)
      = inl (UnicodeDecodeError (path y))).
Proof.
  intros Henum Hx Hy.
  assert (Hm : members ch [x; y] = [x; y]).
  { destruct ch; cbn [belongs] in Hx, Hy; unfold members; cbn [filter];
      now rewrite Hx, Hy. }
  clear Hx Hy. rewrite get_device_eq. unfold outcome. cbn [snd].
  rewrite Henum.
  assert (Hres : select_paths vendor product (x :: y :: rest)
                 = inl (multiple_found (multiple_prefix ch) (path x)
                          (path y))).
  { unfold select_paths. cbn [get_device_loop].
    revert Hm. rewrite !members_cons.
    unfold get_device_step, members, is_request, is_data, has_marker.
    cbn [filter]. destruct ch; cbn [multiple_prefix].
    - destruct (is_vendor_collection x); cbn [andb];
        [|destruct (is_vendor_collection y
                    && contains request_marker (path y)); discriminate].
      destruct (contains request_marker (path x)) eqn:Hx;
        [|destruct (is_vendor_collection y
                    && contains request_marker (path y)); discriminate].
      cbn [nonempty]. pose proof (contains_request_nonempty _ Hx) as Hn.
      destruct (is_vendor_collection y); cbn [andb]; [|discriminate].
      destruct (contains request_marker (path y)); [|discriminate].
      intros _. now rewrite Hn.
    - destruct (is_vendor_collection x); cbn [andb];
        [|destruct (is_vendor_collection y
                    && negb (contains request_marker (path y))
                    && contains data_marker (path y)); discriminate].
      destruct (contains request_marker (path x)); cbn [andb negb];
        [destruct (is_vendor_collection y
                   && negb (contains request_marker (path y))
                   && contains data_marker (path y)); discriminate|].
      destruct (contains data_marker (path x)) eqn:Hx;
        [|destruct (is_vendor_collection y
                    && negb (contains request_marker (path y))
                    && contains data_marker (path y)); discriminate].
      cbn [nonempty]. pose proof (contains_data_nonempty _ Hx) as Hn.
      destruct (is_vendor_collection y); cbn [andb]; [|discriminate].
      destruct (contains request_marker (path y)); cbn [andb negb];
        [discriminate|].
      destruct (contains data_marker (path y)); [|discriminate].
      intros _. now rewrite Hn. }
  rewrite Hres. unfold multiple_found, decode.
  split; [reflexivity|split].
  - now intros ->.
  - now intros -> ->.
Qed.

Lemma get_device_undecodable_duplicate_witness :
  outcome (get_device
             (sample_host [undecodable "a&Col05"; collection "b&Col05"] [] [])
             vendor product)
  = inl (UnicodeDecodeError (Byte.xff :: b "a&Col05")).
Proof.
  refine (proj1 (proj2 (get_device_undecodable_duplicate
                          (sample_host
                             [undecodable "a&Col05"; collection "b&Col05"]
                             [] [])
                          vendor product Request
                          (undecodable "a&Col05") (collection "b&Col05") []
                          _ _ _)) _); reflexivity.
Defined.

(** ** The formatters *)

Lemma firstn_add {A} (n m : nat) (l : list A) :
  firstn (n + m) l = firstn n l ++ firstn m (skipn n l).
Proof.
  revert l. induction n as [|n IH]; intros l; [reflexivity|].
  destruct l as [|x l]; simpl.
  - now destruct m.
  - now rewrite IH.
Qed.

Lemma chunks_of_eq (int_list : list Z) :
  chunks_of int_list
  = map (fun k => firstn 4 (skipn (k * 4) int_list))
      (seq 0 ((List.length int_list + 3) / 4)).
Proof.
  unfold chunks_of, range0. rewrite map_map.
  now replace (List.length int_list + 4 - 1)%nat
    with (List.length int_list + 3)%nat by lia.
Qed.

Lemma concat_chunks_upto (int_list : list Z) (m : nat) :
  List.concat (map (fun k => firstn 4 (skipn (k * 4) int_list)) (seq 0 m))
  = firstn (m * 4) int_list.
Proof.
  induction m as [|m IH]; [reflexivity|].
  rewrite seq_S, map_app, concat_app, IH. cbn [map List.concat plus].
  rewrite app_nil_r.
  replace (S m * 4)%nat with (m * 4 + 4)%nat by lia.
  now rewrite firstn_add.
Qed.

(** X4.  The chunks that [format_to_hex_template] renders, one per line:
    put end to end they are the input, in order; each holds at least one
    and at most four elements; and there are as many as the length divided
    by four, rounded up (none for the empty list). *)
Theorem chunks_of_partition (int_list : list Z) :
  List.concat (chunks_of int_list) = int_list
  /\ Forall (fun chunk => (1 <= List.length chunk <= 4)%nat)
       (chunks_of int_list)
  /\ List.length (chunks_of int_list)
     = ((List.length int_list + 3) / 4)%nat
  /\ format_to_hex_template int_list
     = fold_left
         (fun formatted_str '(idx, chunk) =>
            formatted_str +++ format_0x 4 (Z.of_nat (idx * 4))
            +++ "  " +++ join " " (map (format_0x 2) chunk) +++ newline)
         (combine (seq 0 (List.length (chunks_of int_list)))
            (chunks_of int_list)) "".
Proof.
  pose proof (Nat.div_mod_eq (List.length int_list + 3) 4) as Hdiv.
  pose proof (Nat.mod_upper_bound (List.length int_list + 3) 4) as Hmod.
  repeat split.
  - rewrite chunks_of_eq, concat_chunks_upto. apply firstn_all2. lia.
  - rewrite chunks_of_eq. apply Forall_forall. intros chunk Hin.
    apply in_map_iff in Hin. destruct Hin as (k & <- & Hk).
    apply in_seq in Hk. rewrite length_firstn, length_skipn. lia.
  - rewrite chunks_of_eq, length_map, length_seq. reflexivity.
Qed.

Lemma length_append (s1 s2 : str) :
  String.length (s1 +++ s2) = (String.length s1 + String.length s2)%nat.
Proof. induction s1 as [|c s1 IH]; simpl; [reflexivity | now rewrite IH]. Qed.

Lemma format_0x_2_byte (x : byte) :
  String.length (format_0x 2 (int_of_byte x)) = 2%nat.
Proof. destruct x; reflexivity. Qed.

Lemma format_0x_2_range (i : Z) :
  0 <= i < 256 -> String.length (format_0x 2 i) = 2%nat.
Proof.
  intros Hi. destruct (Byte.of_N (Z.to_N i)) as [x|] eqn:E.
  - apply Byte.to_of_N in E.
    replace i with (int_of_byte x); [apply format_0x_2_byte|].
    unfold int_of_byte. rewrite E. lia.
  - exfalso. pose proof (Byte.to_of_N_option_map (Z.to_N i)) as H.
    rewrite E in H. simpl in H.
    destruct (Z.to_N i <=? 255)%N eqn:Hle; [discriminate|].
    apply N.leb_gt in Hle. lia.
Qed.

(** X5.  [list_to_hex] of byte values is of fixed width: two characters for
    each byte and one between two bytes, so [3 * n - 1] characters for [n]
    bytes, and none for no byte. *)
Theorem list_to_hex_length (int_list : list Z) :
  Forall (fun i => 0 <= i < 256) int_list ->
  String.length (list_to_hex int_list)
  = (3 * List.length int_list - 1)%nat.
Proof.
  unfold list_to_hex. induction 1 as [|i rest Hi Hrest IH]; [reflexivity|].
  cbn [map join List.length].
  destruct rest as [|j rest].
  - cbn [map]. now rewrite format_0x_2_range.
  - cbn [map] in *. rewrite !length_append, IH, format_0x_2_range by trivial.
    cbn [List.length String.length]. lia.
Qed.

Lemma list_to_hex_length_witness :
  String.length (list_to_hex get_keymap_header) = 17%nat.
Proof.
  apply (list_to_hex_length get_keymap_header).
  repeat constructor; lia.
Defined.

(** ** [main]: what a run can contain *)

Lemma all_events_bind_outcome {A B} (P : event -> Prop)
    (m : M A) (k : A -> M B) :
  all_events P m -> (forall a, outcome m = inr a -> all_events P (k a)) ->
  all_events P (bind m k).
Proof.
  unfold all_events. destruct m as [t [e | a]]; intros Hm Hk.
  - exact Hm.
  - rewrite bind_return. cbn [trace fst] in *.
    apply Forall_app. split; [exact Hm | now apply Hk].
Qed.

Lemma all_events_if_set_some (P : event -> Prop)
    (o : option str) (body : str -> M unit) :
  (forall name, o = Some name -> truthy o = true -> all_events P (body name)) ->
  all_events P (if_set o body).
Proof.
  intros H. unfold if_set. destruct o as [name|]; [|constructor].
  destruct (truthy (Some name)) eqn:E; [now apply H | constructor].
Qed.

Lemma outcome_call {A} (ev : event) (x : exn + A) (a : A) :
  outcome (call ev x) = inr a -> x = inr a.
Proof. trivial. Qed.

Lemma outcome_call_ (ev : event) (x : option exn) (u : unit) :
  outcome (call_ ev x) = inr u -> x = None.
Proof. destruct x; [discriminate | reflexivity]. Qed.

Lemma outcome_with_open {A} (h : host) (name mode : str) (body : M A) (a : A) :
  outcome (with_open h name mode body) = inr a ->
  file_open h name mode = None /\ outcome body = inr a.
Proof.
  unfold with_open, finally.
  destruct (file_open h name mode); [discriminate|].
  destruct body as [t res]. cbn. now intros ->.
Qed.

(** Each file event of a run, on its own. *)
Lemma file_events_of_main (h : host) (args : namespace) :
  Forall (file_event_allowed h args) (trace (main h args))
  /\ (force args = false ->
      forall name data,
        ~ In (FileOpen name "wb") (trace (main h args))
        /\ ~ In (FileWrite name data) (trace (main h args))).
Proof.
  assert (Hall : Forall (file_event_allowed h args) (trace (main h args))).
  { change (all_events (file_event_allowed h args) (main h args)).
    unfold main.
    apply all_events_bind; [now apply all_events_check_args | intros _].
    apply all_events_bind;
      [now apply all_events_get_device | intros [rp dp]].
    apply all_events_bind; [now apply all_events_call_ | intros _].
    apply all_events_bind; [now apply all_events_call_ | intros _].
    apply all_events_bind; [|intros _; apply all_events_bind; [|intros _]].
    - apply all_events_if_set_some. intros name Hread Htruthy.
      unfold read_keymap. destruct (force args) eqn:Hforce.
      + apply all_events_bind; [now apply all_events_print | intros _].
        apply all_events_bind_outcome; [now apply all_events_call|].
        intros send_result Hsend%outcome_call.
        apply all_events_bind; [now apply all_events_print | intros _].
        apply all_events_bind_outcome; [now apply all_events_call|].
        intros response Hget%outcome_call.
        apply all_events_bind; [now apply all_events_print | intros _].
        unfold with_open. apply all_events_bind_outcome.
        * apply all_events_call_. right. repeat split; trivial.
          -- now exists send_result.
          -- now exists response.
        * intros u Hopen%outcome_call_. apply all_events_finally.
          -- apply all_events_bind_outcome; [apply all_events_lift|].
             intros data Hdata. apply all_events_call_.
             repeat split; trivial. exists response. split; trivial.
             unfold lift, outcome in Hdata. cbn [snd] in Hdata.
             rewrite bytes_of_pruned in Hdata. congruence.
          -- right. now split.
      + repeat (apply all_events_bind; [|intros ?]);
          now apply all_events_print.
    - apply all_events_if_set_some. intros name Hwrite Htruthy.
      unfold write_keymap. apply all_events_bind.
      + unfold with_open. apply all_events_bind_outcome.
        * apply all_events_call_. left. now repeat split.
        * intros u Hopen%outcome_call_. apply all_events_finally.
          -- apply all_events_call. now split.
          -- left. now split.
      + intros blob. destruct (force args).
        * apply all_events_bind; [now apply all_events_print | intros _].
          apply all_events_bind; [now apply all_events_call | intros ?].
          now apply all_events_print.
        * repeat (apply all_events_bind; [|intros ?]);
            now apply all_events_print.
    - apply all_events_bind; [|intros _]; now apply all_events_emit. }
  split; [exact Hall|].
  intros Hforce name data. rewrite Forall_forall in Hall. split; intros Hin.
  - apply Hall in Hin. cbn in Hin.
    destruct Hin as [(Hmode & _) | (_ & _ & _ & Hf & _)];
      [discriminate | congruence].
  - apply Hall in Hin. cbn in Hin. destruct Hin as (_ & Hf & _). congruence.
Qed.


Lemma feature_reports_of_main (h : host) (args : namespace) :
  all_events (feature_report_allowed h args) (main h args).
Proof.
  unfold main.
  apply all_events_bind; [now apply all_events_check_args | intros _].
  apply all_events_bind; [now apply all_events_get_device | intros [rp dp]].
  apply all_events_bind; [now apply all_events_call_ | intros _].
  apply all_events_bind; [now apply all_events_call_ | intros _].
  apply all_events_bind; [|intros _; apply all_events_bind; [|intros _]].
  - apply all_events_if_set_some. intros name Hread Htruthy.
    unfold read_keymap. destruct (force args) eqn:Hforce.
    + apply all_events_bind; [now apply all_events_print | intros _].
      apply all_events_bind_outcome.
      { apply all_events_call. split; trivial. left. now repeat split. }
      intros send_result Hsend%outcome_call.
      apply all_events_bind; [now apply all_events_print | intros _].
      apply all_events_bind.
      { apply all_events_call. repeat split; trivial. now exists send_result. }
      intros response.
      apply all_events_bind; [now apply all_events_print | intros _].
      apply all_events_with_open; try exact I.
      apply all_events_bind; [apply all_events_lift | intros data].
      now apply all_events_call_.
    + repeat (apply all_events_bind; [|intros ?]);
        now apply all_events_print.
  - apply all_events_if_set_some. intros name Hwrite Htruthy.
    unfold write_keymap. apply all_events_bind_outcome.
    + apply all_events_with_open; try exact I. now apply all_events_call.
    + intros blob [Hopen Hblob%outcome_call]%outcome_with_open.
      destruct (force args) eqn:Hforce.
      * apply all_events_bind; [now apply all_events_print | intros _].
        apply all_events_bind; [|intros ?; now apply all_events_print].
        apply all_events_call. split; trivial. right.
        repeat split; trivial. exists name, blob. now repeat split.
      * repeat (apply all_events_bind; [|intros ?]);
          now apply all_events_print.
  - apply all_events_bind; [|intros _]; now apply all_events_emit.
Qed.

(** X7.  Every feature-report call in a run of [main] is one of these, and
    is made only with the force flag: the read header sent on [r] in a read;
    the request for report 6 of at most 2047 bytes on [d], in a read whose
    header was sent; the write header followed by the contents of the input
    file sent on [d] in a write.  Nothing else is ever sent to the
    keyboard. *)
Theorem main_feature_reports (h : host) (args : namespace) :
  Forall (feature_report_allowed h args) (trace (main h args)).
Proof. exact (feature_reports_of_main h args). Qed.

(** ** [main]: how a run starts and when it returns *)

(** The five ways a run of [main] can start. *)
Lemma main_startup (h : host) (args : namespace) :
  (truthy (read args) = truthy (write args)
   /\ exists message,
        main h args = ([ParserError message], inl (SystemExit 2)))
  \/ (truthy (read args) <> truthy (write args)
      /\ ((exists e,
             outcome (get_device h vendor product) = inl e
             /\ main h args = ([HidEnumerate vendor product], inl e))
          \/ exists request_path data_path,
               outcome (get_device h vendor product)
               = inr (request_path, data_path)
               /\ ((exists e,
                      hid_open_path h dev_r request_path = Some e
                      /\ main h args
                         = ([HidEnumerate vendor product;
                             HidOpenPath dev_r request_path], inl e))
                   \/ (hid_open_path h dev_r request_path = None
                       /\ exists e,
                            hid_open_path h dev_d data_path = Some e
                            /\ main h args
                               = ([HidEnumerate vendor product;
                                   HidOpenPath dev_r request_path;
                                   HidOpenPath dev_d data_path], inl e))
                   \/ (hid_open_path h dev_r request_path = None
                       /\ hid_open_path h dev_d data_path = None
                       /\ main h args
                          = (([HidEnumerate vendor product;
                               HidOpenPath dev_r request_path;
                               HidOpenPath dev_d data_path], inr tt) ;;
                             if_set (read args) (read_keymap h args) ;;
                             if_set (write args) (write_keymap h args) ;;
                             emit (HidClose dev_r) ;;
                             emit (HidClose dev_d)))))).
Proof.
  destruct (Bool.bool_dec (truthy (read args)) (truthy (write args)))
    as [Heq | Hne].
  - left. split; [exact Heq|]. unfold main, check_args. rewrite Heq.
    destruct (truthy (write args)); eexists; reflexivity.
  - right. split; [exact Hne|]. unfold main.
    rewrite (check_args_one _ Hne), get_device_eq.
    unfold outcome. cbn [snd].
    destruct (select_paths vendor product (hid_enumerate h vendor product))
      as [e | [rp dp]].
    + left. now exists e.
    + right. exists rp, dp. split; [reflexivity|]. run.
      destruct (hid_open_path h dev_r rp) as [e|].
      * left. now exists e.
      * right. destruct (hid_open_path h dev_d dp) as [e|].
        -- left. split; [reflexivity|]. now exists e.
        -- right. repeat split. run. unfold bind.
           now destruct (if_set (read args) (read_keymap h args))
             as [t0 [e0 | []]];
             [|destruct (if_set (write args) (write_keymap h args))
                 as [t1 [e1 | []]]].
Qed.

(** X8.  When a handle cannot be opened, [main] ends with the error of the
    open and does nothing more: if it is the request handle, the data
    handle is never opened; if it is the data handle, the request handle,
    already open, is not closed. *)
Theorem main_open_failure
    (h : host) (args : namespace) (request_path data_path : bytes) :
  truthy (read args) <> truthy (write args) ->
  outcome (get_device h vendor product) = inr (request_path, data_path) ->
  (forall e,
      hid_open_path h dev_r request_path = Some e ->
      main h args
      = ([HidEnumerate vendor product; HidOpenPath dev_r request_path],
         inl e))
  /\ (forall e,
        hid_open_path h dev_r request_path = None ->
        hid_open_path h dev_d data_path = Some e ->
        main h args
        = ([HidEnumerate vendor product; HidOpenPath dev_r request_path;
            HidOpenPath dev_d data_path],
           inl e)).
Proof.
  intros Hne Hdev. unfold main.
  rewrite (check_args_one _ Hne), (get_device_outcome _ _ _ _ Hdev).
  split.
  - intros e He. run. now rewrite He.
  - intros e Hr He. run. now rewrite Hr, He.
Qed.

Lemma main_open_failure_witness :
  main (busy_host keyboard)
    {| read := Some "out.bin"; write := None; force := true |}
  = ([HidEnumerate 0x05ac 0x024f;
      HidOpenPath dev_r (b "hid#vid_05ac&pid_024f&mi_01&Col05")],
     inl (OSError "open failed")).
Proof.
  refine (proj1 (main_open_failure (busy_host keyboard)
                   {| read := Some "out.bin"; write := None; force := true |}
                   (b "hid#vid_05ac&pid_024f&mi_01&Col05")
                   (b "hid#vid_05ac&pid_024f&mi_01&Col06") _ _) _ _).
  - simpl. discriminate.
  - reflexivity.
  - reflexivity.
Defined.

Lemma main_after_startup
    (h : host) (args : namespace) (ev : event) :
  In ev (trace (main h args)) ->
  is_startup ev = false ->
  truthy (read args) <> truthy (write args)
  /\ exists request_path data_path rest,
       outcome (get_device h vendor product) = inr (request_path, data_path)
       /\ hid_open_path h dev_r request_path = None
       /\ hid_open_path h dev_d data_path = None
       /\ trace (main h args)
          = HidEnumerate vendor product
            :: HidOpenPath dev_r request_path
            :: HidOpenPath dev_d data_path :: rest.
Proof.
  intros Hin Hev.
  destruct (main_startup h args)
    as [(_ & m & Hm)
       | (Hne & [(e & _ & Hm)
              | (rp & dp & Hdev & [(e & _ & Hm)
                                  | [(_ & e & _ & Hm)
                                    | (Hr & Hd & Hm)]])])];
    rewrite Hm in Hin |- *.
  - destruct Hin as [<- | []]. discriminate.
  - destruct Hin as [<- | []]. discriminate.
  - destruct Hin as [<- | [<- | []]]; discriminate.
  - destruct Hin as [<- | [<- | [<- | []]]]; discriminate.
  - split; [exact Hne|]. exists rp, dp. rewrite bind_return.
    cbn [trace fst app]. eexists. repeat split; trivial.
Qed.

(** X9.  Nothing is printed, no file is touched, no feature report is
    exchanged and no handle is closed before both handles are open: a run
    that contains any event other than the usage error, the enumeration and
    the opens had exactly one of the two targets given, and starts with the
    enumeration, a resolution that succeeded and the two opens, both
    successful. *)
Theorem main_operation_after_open
    (h : host) (args : namespace) (ev : event) :
  In ev (trace (main h args)) ->
  is_startup ev = false ->
  truthy (read args) <> truthy (write args)
  /\ exists request_path data_path rest,
       outcome (get_device h vendor product) = inr (request_path, data_path)
       /\ hid_open_path h dev_r request_path = None
       /\ hid_open_path h dev_d data_path = None
       /\ trace (main h args)
          = HidEnumerate vendor product
            :: HidOpenPath dev_r request_path
            :: HidOpenPath dev_d data_path :: rest.
Proof. exact (main_after_startup h args ev). Qed.

Lemma main_operation_after_open_witness :
  truthy (Some "out.bin") <> truthy None
  /\ exists request_path data_path rest,
    outcome (get_device (sample_host keyboard (b "0123456789") [])
               vendor product)
    = inr (request_path, data_path)
    /\ hid_open_path (sample_host keyboard (b "0123456789") [])
         dev_r request_path = None
    /\ hid_open_path (sample_host keyboard (b "0123456789") [])
         dev_d data_path = None
    /\ trace (main (sample_host keyboard (b "0123456789") [])
                {| read := Some "out.bin"; write := None; force := true |})
       = HidEnumerate vendor product
         :: HidOpenPath dev_r request_path
         :: HidOpenPath dev_d data_path :: rest.
Proof.
  apply (main_operation_after_open
           (sample_host keyboard (b "0123456789") [])
           {| read := Some "out.bin"; write := None; force := true |}
           (HidGetFeatureReport dev_d 0x06 0x7ff)).
  - cbn. tauto.
  - reflexivity.
Defined.

Lemma outcome_bind {A B} (m : M A) (k : A -> M B) (y : B) :
  outcome (bind m k) = inr y
  <-> exists a, outcome m = inr a /\ outcome (k a) = inr y.
Proof.
  destruct m as [t [e | a]].
  - split; [discriminate | intros (a & H & _); discriminate].
  - rewrite bind_return. unfold outcome. cbn [snd]. split.
    + intros H. now exists a.
    + intros (a' & [= <-] & H). exact H.
Qed.

Lemma outcome_if_set (o : option str) (body : str -> M unit) :
  outcome (if_set o body) = inr tt
  <-> forall name,
        o = Some name -> truthy o = true -> outcome (body name) = inr tt.
Proof.
  unfold if_set. destruct o as [name|].
  - destruct (truthy (Some name)) eqn:E.
    + split; [now intros H name' [= <-] _ | intros H; now apply H].
    + split; [intros _ name' _ H; discriminate | reflexivity].
  - split; [intros _ name' H; discriminate | reflexivity].
Qed.

(** When the body of [if args.read:] runs to its end. *)
Lemma read_keymap_returns (h : host) (args : namespace) (name : str) :
  outcome (read_keymap h args name) = inr tt
  <-> (force args = true ->
       (exists send_result,
           hid_send_feature_report h dev_r get_keymap_header
           = inr send_result)
       /\ exists response,
            hid_get_feature_report h dev_d 0x06 max_request_size
            = inr response
            /\ file_open h name "wb" = None
            /\ file_write h name (skipn 8 response) = None).
Proof.
  unfold read_keymap, with_open. destruct (force args).
  - run.
    destruct (hid_send_feature_report h dev_r get_keymap_header)
      as [e | send_result].
    { split; [discriminate|]. intros H.
      destruct (H eq_refl) as [[n Hn] _]. discriminate. }
    run.
    destruct (hid_get_feature_report h dev_d 6 max_request_size)
      as [e | response].
    { split; [discriminate|]. intros H.
      destruct (H eq_refl) as [_ (resp & Hresp & _)]. discriminate. }
    run. rewrite bytes_of_pruned.
    destruct (file_open h name "wb") as [e|] eqn:Hopen.
    { split; [discriminate|]. intros H.
      destruct (H eq_refl) as [_ (resp & _ & Ho & _)]. discriminate. }
    run.
    destruct (file_write h name (skipn 8 response)) as [e|] eqn:Hwrite.
    { split; [discriminate|]. intros H.
      destruct (H eq_refl) as [_ (resp & [= <-] & _ & Hw)].
      rewrite Hwrite in Hw. discriminate. }
    split; [|reflexivity]. intros _ _. split.
    + now exists send_result.
    + exists response. now repeat split.
  - split; [intros _ H; discriminate | reflexivity].
Qed.

(** When the body of [if args.write:] runs to its end. *)
Lemma write_keymap_returns (h : host) (args : namespace) (name : str) :
  outcome (write_keymap h args name) = inr tt
  <-> file_open h name "rb" = None
      /\ exists blob,
           file_read h name = inr blob
           /\ (force args = true ->
               exists send_result,
                 hid_send_feature_report h dev_d
                   (set_keymap_header ++ list_of_bytes blob)
                 = inr send_result).
Proof.
  unfold write_keymap, with_open.
  destruct (file_open h name "rb") as [e|].
  { split; [discriminate | intros [H _]; discriminate]. }
  run. destruct (file_read h name) as [e | blob].
  { split; [discriminate | intros [_ (blob & H & _)]; discriminate]. }
  run. destruct (force args).
  - run.
    destruct (hid_send_feature_report h dev_d
                (set_keymap_header ++ list_of_bytes blob))
      as [e | send_result] eqn:Hsend.
    + split; [discriminate|]. intros [_ (blob' & [= <-] & H)].
      destruct (H eq_refl) as [n Hn]. rewrite Hsend in Hn. discriminate.
    + split; [|reflexivity]. intros _. split; [reflexivity|].
      exists blob. split; [reflexivity|]. intros _. now exists send_result.
  - split; [|reflexivity]. intros _. split; [reflexivity|].
    exists blob. split; [reflexivity|]. intros H. discriminate.
Qed.

(** X10.  [main] returns, and the process exits with status 0, exactly
    when: one of the two targets is given; resolution succeeds; both handles
    open; and the operation goes through.  For a read with the force flag
    that is: the header is sent, a response is received, the output file
    opens and the pruned response is written.  For a write: the input file
    opens and is read and, with the force flag, the frame is sent.  The
    count that the transport returns for a send is not looked at: any count
    will do.  Without the force flag a read needs nothing more than the two
    open handles. *)
Theorem main_returns (h : host) (args : namespace) :
  outcome (main h args) = inr tt
  <-> truthy (read args) <> truthy (write args)
      /\ exists request_path data_path,
           outcome (get_device h vendor product)
           = inr (request_path, data_path)
           /\ hid_open_path h dev_r request_path = None
           /\ hid_open_path h dev_d data_path = None
           /\ (forall output_file,
                 read args = Some output_file ->
                 truthy (read args) = true ->
                 force args = true ->
                 (exists send_result,
                     hid_send_feature_report h dev_r get_keymap_header
                     = inr send_result)
                 /\ exists response,
                      hid_get_feature_report h dev_d 0x06 max_request_size
                      = inr response
                      /\ file_open h output_file "wb" = None
                      /\ file_write h output_file (skipn 8 response) = None)
           /\ (forall input_file,
                 write args = Some input_file ->
                 truthy (write args) = true ->
                 file_open h input_file "rb" = None
                 /\ exists blob,
                      file_read h input_file = inr blob
                      /\ (force args = true ->
                          exists send_result,
                            hid_send_feature_report h dev_d
                              (set_keymap_header ++ list_of_bytes blob)
                            = inr send_result)).
Proof.
  destruct (main_startup h args)
    as [(Heq & m & Hm)
       | (Hne & [(e & He & Hm)
                | (rp & dp & Hdev & [(e & He & Hm)
                                    | [(Hr & e & He & Hm)
                                      | (Hr & Hd & Hm)]])])];
    rewrite Hm.
  - split; [discriminate | intros [Hne _]; contradiction].
  - split; [discriminate|]. intros (_ & rp & dp & Hdev & _). congruence.
  - split; [discriminate|]. intros (_ & rp' & dp' & Hdev' & Hr & _).
    rewrite Hdev in Hdev'. injection Hdev' as <- <-. congruence.
  - split; [discriminate|]. intros (_ & rp' & dp' & Hdev' & _ & Hd & _).
    rewrite Hdev in Hdev'. injection Hdev' as <- <-. congruence.
  - rewrite bind_return. unfold outcome at 1. cbn [snd].
    rewrite outcome_bind. split.
    + intros ([] & Hread & Hrest). apply outcome_bind in Hrest.
      destruct Hrest as ([] & Hwrite & _).
      rewrite outcome_if_set in Hread, Hwrite.
      split; [exact Hne|]. exists rp, dp.
      split; [exact Hdev|]. split; [exact Hr|]. split; [exact Hd|]. split.
      * intros name Hn Ht Hf. specialize (Hread name Hn Ht).
        apply read_keymap_returns in Hread; trivial.
      * intros name Hn Ht. specialize (Hwrite name Hn Ht).
        now apply write_keymap_returns in Hwrite.
    + intros (_ & rp' & dp' & Hdev' & _ & _ & Hread & Hwrite).
      exists tt. split.
      * apply outcome_if_set. intros name Hn Ht.
        apply read_keymap_returns. intros Hf. now apply Hread.
      * apply outcome_bind. exists tt. split; [|reflexivity].
        apply outcome_if_set. intros name Hn Ht.
        apply write_keymap_returns. now apply Hwrite.
Qed.

Lemma main_returns_witness :
  outcome (main (sample_host keyboard (b "0123456789") [])
             {| read := Some "out.bin"; write := None; force := true |})
  = inr tt.
Proof.
  apply (proj2 (main_returns (sample_host keyboard (b "0123456789") [])
                  {| read := Some "out.bin"; write := None;
                     force := true |})).
  split; [simpl; discriminate|].
  exists (b "hid#vid_05ac&pid_024f&mi_01&Col05"),
    (b "hid#vid_05ac&pid_024f&mi_01&Col06").
  split; [reflexivity|]. split; [reflexivity|]. split; [reflexivity|].
  split.
  - intros name _ _ _. split; [now exists 6|].
    exists (b "0123456789"). now repeat split.
  - intros name _ Ht. discriminate Ht.
Defined.

(** ** Resolution: descriptors of neither channel *)

Lemma get_device_step_unclassified (st : bytes * bytes) (device : device_info) :
  belongs Request device = false -> belongs Data device = false ->
  get_device_step st device = inr st.
Proof.
  cbn [belongs]. unfold is_request, is_data, has_marker, get_device_step.
  destruct st as [rp dp].
  destruct (is_vendor_collection device); [|reflexivity].
  destruct (contains request_marker (path device)); [discriminate|].
  destruct (contains data_marker (path device)); [discriminate|reflexivity].
Qed.

Lemma select_paths_nonempty vendor product devices :
  devices <> [] ->
  select_paths vendor product devices
  = match get_device_loop devices ([], []) with
    | inl e => inl e
    | inr (request_path, data_path) =>
        if negb (nonempty request_path) then inl no_request_device
        else if negb (nonempty data_path) then inl no_data_device
        else inr (request_path, data_path)
    end.
Proof. destruct devices; [contradiction | reflexivity]. Qed.

(** X11.  A descriptor that belongs to neither channel (it fails the
    filter, or its path has neither marker) can be taken out of the
    enumeration without changing how resolution ends, as long as another
    descriptor is left; when it is the only descriptor, resolution ends with
    "No request device found", not with the message for an enumeration
    without devices. *)
Theorem get_device_ignores_unclassified
    (h h' : host) (vendor product : Z)
    (pre post : list device_info) (device : device_info) :
  hid_enumerate h vendor product = pre ++ device :: post ->
  hid_enumerate h' vendor product = pre ++ post ->
  belongs Request device = false -> belongs Data device = false ->
  (pre ++ post <> [] ->
   outcome (get_device h vendor product)
   = outcome (get_device h' vendor product))
  /\ (pre ++ post = [] ->
      outcome (get_device h vendor product) = inl no_request_device
      /\ outcome (get_device h' vendor product)
         = inl (no_devices vendor product)).
Proof.
  intros Hh Hh' Hr Hd. rewrite !get_device_eq. unfold outcome. cbn [snd].
  rewrite Hh, Hh'. clear Hh Hh'.
  assert (Hloop : forall st,
             get_device_loop (pre ++ device :: post) st
             = get_device_loop (pre ++ post) st).
  { induction pre as [|x pre IH]; intros st; simpl.
    - now rewrite (get_device_step_unclassified st device Hr Hd).
    - destruct (get_device_step st x); [reflexivity | apply IH]. }
  split.
  - intros Hne. rewrite !select_paths_nonempty, Hloop; trivial.
    now destruct pre.
  - intros Hnil. apply app_eq_nil in Hnil. destruct Hnil as [-> ->].
    split; [|reflexivity].
    unfold select_paths. cbn [app get_device_loop].
    now rewrite (get_device_step_unclassified _ device Hr Hd).
Qed.

Lemma get_device_ignores_unclassified_witness :
  outcome (get_device
             (sample_host
                ([collection "kbd&Col05"]
                 ++ collection "kbd&Col01" :: [collection "kbd&Col06"])
                [] [])
             vendor product)
  = outcome (get_device
               (sample_host
                  ([collection "kbd&Col05"] ++ [collection "kbd&Col06"])
                  [] [])
               vendor product).
Proof.
  refine (proj1 (get_device_ignores_unclassified
                   (sample_host
                      ([collection "kbd&Col05"]
                       ++ collection "kbd&Col01" :: [collection "kbd&Col06"])
                      [] [])
                   (sample_host
                      ([collection "kbd&Col05"] ++ [collection "kbd&Col06"])
                      [] [])
                   vendor product
                   [collection "kbd&Col05"] [collection "kbd&Col06"]
                   (collection "kbd&Col01") _ _ _ _) _);
    try reflexivity.
  discriminate.
Defined.

(** ** Dry run and forced run *)

Lemma truthy_inv (o : option str) :
  truthy o = true -> exists name, o = Some name /\ name <> "".
Proof.
  destruct o as [name|]; [|discriminate]. intros H. exists name.
  split; [reflexivity|]. apply String.eqb_neq. now apply negb_true_iff.
Qed.

Lemma main_dry_run_read_trace
    (h : host) (args : namespace) (name : str) (rp dp : bytes) :
  force args = false ->
  read args = Some name -> name <> "" -> truthy (write args) = false ->
  outcome (get_device h vendor product) = inr (rp, dp) ->
  hid_open_path h dev_r rp = None -> hid_open_path h dev_d dp = None ->
  In (PrintLine (list_to_hex get_keymap_header)) (trace (main h args)).
Proof.
  intros Hforce Hread Hname Hwrite Hdev Hr Hd. unfold main.
  rewrite check_args_one, (get_device_outcome _ _ _ _ Hdev),
    (if_set_true _ _ _ Hread Hname), (if_set_false _ _ Hwrite).
  2: { rewrite Hread, Hwrite, (truthy_some _ Hname). discriminate. }
  unfold read_keymap. rewrite Hforce. run. rewrite Hr, Hd.
  cbn [trace fst call_ bind app]. do 4 right. now left.
Qed.

Lemma main_dry_run_write_trace
    (h : host) (args : namespace) (name : str) (rp dp blob : bytes) :
  force args = false ->
  write args = Some name -> name <> "" -> truthy (read args) = false ->
  outcome (get_device h vendor product) = inr (rp, dp) ->
  hid_open_path h dev_r rp = None -> hid_open_path h dev_d dp = None ->
  file_open h name "rb" = None -> file_read h name = inr blob ->
  In (PrintLine (list_to_hex (set_keymap_header ++ list_of_bytes blob)))
    (trace (main h args)).
Proof.
  intros Hforce Hwrite Hname Hread Hdev Hr Hd Hopen Hfile. unfold main.
  rewrite check_args_one, (get_device_outcome _ _ _ _ Hdev),
    (if_set_true _ _ _ Hwrite Hname), (if_set_false _ _ Hread).
  2: { rewrite Hread, Hwrite, (truthy_some _ Hname). discriminate. }
  unfold write_keymap, with_open. rewrite Hforce.
  run. rewrite Hr, Hd, Hopen, Hfile.
  cbn [trace fst call_ call bind app finally]. do 7 right. now left.
Qed.

(** X12.  The dry run shows what the forced run sends: on the same host and
    with the same targets, every buffer that the run with the force flag
    sends as a feature report is printed, as [list_to_hex] renders it, by
    the run without the flag. *)
Theorem main_dry_run_shows_sent
    (h : host) (args : namespace) (dev : handle) (buf : list Z) :
  In (HidSendFeatureReport dev buf) (trace (main h (with_force true args))) ->
  In (PrintLine (list_to_hex buf)) (trace (main h (with_force false args))).
Proof.
  intros Hin.
  pose proof (feature_reports_of_main h (with_force true args)) as Hall.
  unfold all_events in Hall. rewrite Forall_forall in Hall. specialize (Hall _ Hin).
  destruct (main_after_startup h (with_force true args) _ Hin eq_refl)
    as (Hne & rp & dp & rest & Hdev & Hr & Hd & _).
  cbn [feature_report_allowed with_force read write force] in Hall, Hne.
  destruct Hall as [_ [(-> & -> & Hread)
                      | (-> & Hwrite & name & blob & Hn & Ho & Hf & ->)]].
  - destruct (truthy_inv _ Hread) as (name & Hn & Hname).
    apply (main_dry_run_read_trace h (with_force false args) name rp dp);
      trivial.
    cbn [with_force write]. rewrite Hread in Hne.
    now destruct (truthy (write args)).
  - destruct (truthy_inv _ Hwrite) as (name' & Hn' & Hname).
    assert (name' = name) by congruence. subst name'.
    apply (main_dry_run_write_trace h (with_force false args) name rp dp
             blob); trivial.
    cbn [with_force read]. rewrite Hwrite in Hne.
    now destruct (truthy (read args)).
Qed.

Lemma main_dry_run_shows_sent_witness :
  In (PrintLine "06 04 d8 00 40 00 00 00 aa bb")
    (trace (main (sample_host keyboard [] [Byte.xaa; Byte.xbb])
              (with_force false
                 {| read := None; write := Some "keymap.bin";
                    force := true |}))).
Proof.
  apply (main_dry_run_shows_sent
           (sample_host keyboard [] [Byte.xaa; Byte.xbb])
           {| read := None; write := Some "keymap.bin"; force := true |}
           dev_d
           [0x06; 0x04; 0xd8; 0x00; 0x40; 0x00; 0x00; 0x00; 0xaa; 0xbb]).
  cbn. tauto.
Defined.

(** ** [main]: the files *)

(** The file events of a run, in the order in which they occur. *)
Lemma file_sequence_of_main (h : host) (args : namespace) :
  let file_events := filter is_file_event (trace (main h args)) in
  file_events = []
  \/ (exists input_file,
        write args = Some input_file /\ truthy (write args) = true
        /\ ((exists e,
               file_open h input_file "rb" = Some e
               /\ file_events = [FileOpen input_file "rb"])
            \/ (file_open h input_file "rb" = None
                /\ file_events
                   = [FileOpen input_file "rb"; FileRead input_file;
                      FileClose input_file])))
  \/ (exists output_file send_result response,
        read args = Some output_file /\ truthy (read args) = true
        /\ force args = true
        /\ hid_send_feature_report h dev_r get_keymap_header
           = inr send_result
        /\ hid_get_feature_report h dev_d 0x06 max_request_size
           = inr response
        /\ ((exists e,
               file_open h output_file "wb" = Some e
               /\ file_events = [FileOpen output_file "wb"])
            \/ (file_open h output_file "wb" = None
                /\ file_events
                   = [FileOpen output_file "wb";
                      FileWrite output_file (skipn 8 response);
                      FileClose output_file]))).
Proof.
  cbv zeta.
  destruct (main_startup h args)
    as [(_ & m & Hm)
       | (Hne & [(e & _ & Hm)
                | (rp & dp & _ & [(e & _ & Hm)
                                 | [(_ & e & _ & Hm)
                                   | (_ & _ & Hm)]])])];
    rewrite Hm; try (left; reflexivity).
  destruct (truthy (read args)) eqn:Hrt, (truthy (write args)) eqn:Hwt;
    try (exfalso; apply Hne; reflexivity).
  - destruct (truthy_inv _ Hrt) as (name & Hn & Hname).
    rewrite (if_set_true _ _ _ Hn Hname), (if_set_false _ _ Hwt).
    unfold read_keymap, with_open. destruct (force args); run.
    2: { left. reflexivity. }
    destruct (hid_send_feature_report h dev_r get_keymap_header)
      as [e | send_result]; [left; reflexivity|].
    run.
    destruct (hid_get_feature_report h dev_d 6 max_request_size)
      as [e | response]; [left; reflexivity|].
    run. rewrite bytes_of_pruned.
    right; right. exists name, send_result, response.
    do 5 (split; [trivial|]).
    destruct (file_open h name "wb") as [e|].
    + left. exists e. split; reflexivity.
    + right. split; [reflexivity|]. run.
      now destruct (file_write h name (skipn 8 response)).
  - destruct (truthy_inv _ Hwt) as (name & Hn & Hname).
    rewrite (if_set_false _ _ Hrt), (if_set_true _ _ _ Hn Hname).
    unfold write_keymap, with_open.
    right; left. exists name. do 2 (split; [trivial|]).
    destruct (file_open h name "rb") as [e|].
    + left. exists e. split; reflexivity.
    + right. split; [reflexivity|]. run.
      destruct (file_read h name) as [e | blob]; [reflexivity|].
      run. destruct (force args); run; [|reflexivity].
      now destruct (hid_send_feature_report h dev_d
                      (set_keymap_header ++ list_of_bytes blob)).
Qed.

(** X6.  The file events of a run of [main], in order, are one of: none;
    in a write, the input file opened for reading, then read, then closed,
    or only its failed open; in a forced read whose header was sent and
    whose response was received, the output file opened for writing, then
    written with the response without its first 8 bytes, then closed, or
    only its failed open.  Each file event on its own satisfies
    [file_event_allowed]: a file is read, written or closed only after its
    open succeeded.  In particular a run without the force flag opens no
    file for writing and writes none. *)
Theorem main_file_events (h : host) (args : namespace) :
  (let file_events := filter is_file_event (trace (main h args)) in
   file_events = []
   \/ (exists input_file,
         write args = Some input_file /\ truthy (write args) = true
         /\ ((exists e,
                file_open h input_file "rb" = Some e
                /\ file_events = [FileOpen input_file "rb"])
             \/ (file_open h input_file "rb" = None
                 /\ file_events
                    = [FileOpen input_file "rb"; FileRead input_file;
                       FileClose input_file])))
   \/ (exists output_file send_result response,
         read args = Some output_file /\ truthy (read args) = true
         /\ force args = true
         /\ hid_send_feature_report h dev_r get_keymap_header
            = inr send_result
         /\ hid_get_feature_report h dev_d 0x06 max_request_size
            = inr response
         /\ ((exists e,
                file_open h output_file "wb" = Some e
                /\ file_events = [FileOpen output_file "wb"])
             \/ (file_open h output_file "wb" = None
                 /\ file_events
                    = [FileOpen output_file "wb";
                       FileWrite output_file (skipn 8 response);
                       FileClose output_file]))))
  /\ Forall (file_event_allowed h args) (trace (main h args))
  /\ (force args = false ->
      forall name data,
        ~ In (FileOpen name "wb") (trace (main h args))
        /\ ~ In (FileWrite name data) (trace (main h args))).
Proof.
  split; [exact (file_sequence_of_main h args)|].
  exact (file_events_of_main h args).
Qed.

Lemma main_file_events_witness :
  let forced_read :=
    {| read := Some "out.bin"; write := None; force := true |} in
  let dry_read :=
    {| read := Some "out.bin"; write := None; force := false |} in
  let forced_write :=
    {| read := None; write := Some "keymap.bin"; force := true |} in
  filter is_file_event
    (trace (main (sample_host keyboard (b "0123456789") []) forced_read))
  = [FileOpen "out.bin" "wb"; FileWrite "out.bin" (b "89");
     FileClose "out.bin"]
  /\ filter is_file_event
       (trace (main (sample_host keyboard [] [Byte.xaa; Byte.xbb])
                 forced_write))
     = [FileOpen "keymap.bin" "rb"; FileRead "keymap.bin";
        FileClose "keymap.bin"]
  /\ ~ In (FileOpen "out.bin" "wb")
        (trace (main (sample_host keyboard (b "0123456789") []) dry_read))
  /\ ~ In (FileWrite "out.bin" (b "89"))
        (trace (main (sample_host keyboard (b "0123456789") []) dry_read)).
Proof.
  intros forced_read dry_read forced_write.
  split; [|split].
  - destruct (proj1 (main_file_events
                       (sample_host keyboard (b "0123456789") [])
                       forced_read))
      as [H | [(name & Hn & _) | (name & n & response & Hn & _ & _ & _
                                  & Hget & [(e & He & _) | (_ & H)])]].
    + discriminate H.
    + discriminate Hn.
    + discriminate He.
    + injection Hn as <-. injection Hget as <-. exact H.
  - destruct (proj1 (main_file_events
                       (sample_host keyboard [] [Byte.xaa; Byte.xbb])
                       forced_write))
      as [H | [(name & Hn & _ & [(e & He & _) | (_ & H)])
              | (name & n & response & Hn & _)]].
    + discriminate H.
    + discriminate He.
    + injection Hn as <-. exact H.
    + discriminate Hn.
  - apply (proj2 (proj2 (main_file_events
                           (sample_host keyboard (b "0123456789") [])
                           dry_read))).
    reflexivity.
Defined.
